(** * generate_srt.py: subtitles from a media file, in a numbered run folder

    A shallow embedding of [generate_srt.py] and the properties its
    specification states about it.

    - [Py] models the part of the Python runtime the script relies on:
      exceptions, [str] methods, integer formatting, binary64 floats,
      [math.floor], [round], [int], [float], [datetime.timedelta],
      [re.match] on the one pattern used and [os.path].
    - The functions of the script follow, under their own names.  The pure
      ones ([is_youtube_url], [format_timestamp]) are plain functions into
      [result]; the ones that touch the file system or start processes run
      in the monad [M] over an arbitrary operating environment, which
      records every interaction in a trace.

    Conventions.  The command line is read by [argparse], which belongs
    to the environment: it hands [main] the one positional argument, or
    ends the process itself.  A Python [str] is a Rocq [string] whose
    characters are the code points below 256; the script itself only
    builds ASCII text, and [str.isspace], [\d] and [int] are modelled
    exactly on that range.  A Python [float] is a primitive binary64
    float.  A [bytes] object only ever reaches the script through
    [.decode()], so captured process output is modelled by what
    [.decode()] makes of it. *)

From Stdlib Require Import ZArith Lia List Ascii String DecimalString.
From Stdlib Require Import PrimFloat FloatOps SpecFloat.
From stdpp Require Import base option list gmap strings.

Set Warnings "-inexact-float".
Set Default Proof Using "Type".
Open Scope Z_scope.

(** ** Exceptions and results *)

(** What [subprocess.check_output(...)] captured, as [.decode()] sees it:
    text, or bytes that are not valid UTF-8. *)
Inductive captured :=
| Utf8 (text : string)
| NotUtf8.

(** The exceptions that can travel through the script.  All but
    [SystemExit] derive from [Exception]. *)
Inductive exn :=
| SystemExit (code : Z)
| TypeError
| ValueError
| OverflowError
| ZeroDivisionError
| AttributeError
| UnicodeDecodeError
| ImportError
| OSError
| CalledProcessError (returncode : Z) (output : captured)
| CollaboratorError.

Definition is_Exception (e : exn) : bool :=
  match e with
  | SystemExit _ => false
  | _ => true
  end.

Inductive result (A : Type) :=
| Returns (a : A)
| Raises (e : exn).
Arguments Returns {A} a.
Arguments Raises {A} e.

Global Instance result_ret : MRet result := @Returns.
Global Instance result_bind : MBind result := λ A B f r,
  match r with
  | Returns a => f a
  | Raises e => Raises e
  end.
Global Instance result_fmap : FMap result := λ A B f r,
  match r with
  | Returns a => Returns (f a)
  | Raises e => Raises e
  end.

(** The exit status of the interpreter once [main()] has returned or an
    exception has reached the top level: [sys.exit(n)] exits with [n], any
    other exception prints a traceback and exits with 1. *)
Definition exit_code {A} (r : result A) : Z :=
  match r with
  | Returns _ => 0
  | Raises (SystemExit n) => n
  | Raises _ => 1
  end.

(** ** The Python runtime *)

Module Py.

(** *** Values held by a segment dictionary *)

Inductive value :=
| VNone
| VInt (n : Z)
| VFloat (x : float)
| VStr (s : string).

(** *** Characters *)

Definition code (c : ascii) : Z := Z.of_nat (nat_of_ascii c).

Definition LF : string := String "010"%char EmptyString.

(** [str.isspace] on a single character (code points below 256). *)
Definition isspace (c : ascii) : bool :=
  let n := code c in
  ((9 <=? n) && (n <=? 13)) || ((28 <=? n) && (n <=? 32))
  || (n =? 133) || (n =? 160).

(** [str.isdecimal]: below 256 the decimal digits are the ASCII ones. *)
Definition isdecimal (c : ascii) : bool :=
  let n := code c in (48 <=? n) && (n <=? 57).

Definition digit_value (c : ascii) : Z := code c - 48.

(** The C-level [Py_ISSPACE], which [int] and [float] use on the text once
    they have turned its non-ASCII white space into blanks. *)
Definition is_c_space (c : ascii) : bool :=
  let n := code c in ((9 <=? n) && (n <=? 13)) || (n =? 32).

Definition blank_unicode_space (c : ascii) : ascii :=
  if (128 <=? code c) && isspace c then " "%char else c.

(** *** Strings *)

Fixpoint lstrip_with (sp : ascii → bool) (s : string) : string :=
  match s with
  | String c t => if sp c then lstrip_with sp t else s
  | EmptyString => EmptyString
  end.

Definition strip_with (sp : ascii → bool) (s : string) : string :=
  String.rev (lstrip_with sp (String.rev (lstrip_with sp s))).

(** [s.strip()] *)
Definition strip (s : string) : string := strip_with isspace s.

Fixpoint map_chars (f : ascii → ascii) (s : string) : string :=
  match s with
  | String c t => String (f c) (map_chars f t)
  | EmptyString => EmptyString
  end.

(** [needle in hay] *)
Fixpoint contains (needle hay : string) : bool :=
  String.prefix needle hay ||
  match hay with
  | String _ t => contains needle t
  | EmptyString => false
  end.

(** [s.split(sep)] for a one-character separator: [cur] holds the piece
    being read, reversed. *)
Fixpoint split_go (sep : ascii) (cur : string) (s : string) : list string :=
  match s with
  | EmptyString => [String.rev cur]
  | String c t =>
      if Ascii.eqb c sep then String.rev cur :: split_go sep EmptyString t
      else split_go sep (String c cur) t
  end.

Definition split (sep : ascii) (s : string) : list string :=
  split_go sep EmptyString s.

(** [sep.join(parts)] *)
Fixpoint join (sep : string) (parts : list string) : string :=
  match parts with
  | [] => EmptyString
  | [x] => x
  | x :: rest => x +:+ sep +:+ join sep rest
  end.

(** [str(n)] for an integer. *)
Definition str_of_int (n : Z) : string :=
  NilZero.string_of_int (Z.to_int n).

Fixpoint zeros (k : nat) : string :=
  match k with
  | O => EmptyString
  | S k' => String "0" (zeros k')
  end.

(** [format(n, "0<width>d")]: the sign first, then zeros up to the width,
    then the digits; wider numbers are printed in full. *)
Definition format_0d (width : nat) (n : Z) : string :=
  let sign := if n <? 0 then "-"%string else ""%string in
  let digits := str_of_int (Z.abs n) in
  sign +:+ zeros (width - String.length sign - String.length digits) +:+ digits.

(** *** Floats *)

Definition prec : Z := 53.
Definition emax : Z := 1024.

Definition sf_of_Z (n : Z) : spec_float :=
  match n with
  | Z0 => S754_zero false
  | Zpos p => S754_finite false p 0
  | Zneg p => S754_finite true p 0
  end.

(** [float(n)] for an integer: the nearest float, ties to even. *)
Definition float_of_int (n : Z) : result float :=
  match binary_normalize prec emax n 0 false with
  | S754_infinity _ => Raises OverflowError
  | sf => Returns (SF2Prim sf)
  end.

(** [a / b] on integers: the correctly rounded quotient. *)
Definition int_truediv (a b : Z) : result float :=
  if b =? 0 then Raises ZeroDivisionError
  else match SFdiv prec emax (sf_of_Z a) (sf_of_Z b) with
       | S754_infinity _ => Raises OverflowError
       | sf => Returns (SF2Prim sf)
       end.

(** [math.floor(x)] *)
Definition floor_float (x : float) : result Z :=
  match Prim2SF x with
  | S754_nan => Raises ValueError
  | S754_infinity _ => Raises OverflowError
  | S754_zero _ => Returns 0
  | S754_finite s m e => Returns (Z.shiftl (cond_Zopp s (Zpos m)) e)
  end.

(** [int(x)] on a float truncates towards zero. *)
Definition int_of_float (x : float) : result Z :=
  match Prim2SF x with
  | S754_nan => Raises ValueError
  | S754_infinity _ => Raises OverflowError
  | S754_zero _ => Returns 0
  | S754_finite s m e => Returns (cond_Zopp s (Z.shiftl (Zpos m) e))
  end.

(** The integer nearest to [m * 2^e], ties to the even one ([m >= 0]). *)
Definition round_half_even (m e : Z) : Z :=
  if 0 <=? e then Z.shiftl m e
  else
    let q := Z.shiftr m (- e) in
    let r := m - Z.shiftl q (- e) in
    let half := Z.shiftl 1 (- e - 1) in
    if r <? half then q
    else if half <? r then q + 1
    else if Z.even q then q else q + 1.

(** [round(x)] with one argument. *)
Definition round_float (x : float) : result Z :=
  match Prim2SF x with
  | S754_nan => Raises ValueError
  | S754_infinity _ => Raises OverflowError
  | S754_zero _ => Returns 0
  | S754_finite s m e => Returns (cond_Zopp s (round_half_even (Zpos m) e))
  end.

(** [x / y] on floats *)
Definition float_truediv (x y : float) : result float :=
  if PrimFloat.eqb y 0%float then Raises ZeroDivisionError
  else Returns (PrimFloat.div x y).

(** [round(x, ndigits)] for [ndigits >= 0]: the float nearest to the
    decimal with [ndigits] places nearest to [x], ties to even. *)
Definition round_ndigits (x : float) (ndigits : Z) : float :=
  match Prim2SF x with
  | S754_finite s m e =>
      let k := round_half_even (Zpos m * 10 ^ ndigits) e in
      if k =? 0 then SF2Prim (S754_zero s)
      else SF2Prim (SFdiv prec emax (sf_of_Z (cond_Zopp s k)) (sf_of_Z (10 ^ ndigits)))
  | _ => x
  end.

(** *** Reading numbers: [int(s)] and [float(s)] *)

Definition strip_sign (s : string) : bool * string :=
  match s with
  | String "-" t => (true, t)
  | String "+" t => (false, t)
  | _ => (false, s)
  end.

(** Decimal digits with single underscores between them. *)
Fixpoint scan_digits (s : string) (after_digit : bool) (acc : Z) : option Z :=
  match s with
  | EmptyString => if after_digit then Some acc else None
  | String c t =>
      if isdecimal c then scan_digits t true (10 * acc + digit_value c)
      else if Ascii.eqb c "_" then
             if after_digit then scan_digits t false acc else None
           else None
  end.

(** [int(s)] *)
Definition int_of_str (s : string) : result Z :=
  let s := strip_with is_c_space (map_chars blank_unicode_space s) in
  let '(neg, body) := strip_sign s in
  match scan_digits body false 0 with
  | Some n => Returns (if neg : bool then - n else n)
  | None => Raises ValueError
  end.

(** [float] accepts an underscore only between two digits, and reads the
    text without them. *)
Fixpoint drop_underscores (prev : ascii) (s : string) : option string :=
  match s with
  | EmptyString => if Ascii.eqb prev "_" then None else Some EmptyString
  | String c t =>
      if Ascii.eqb c "_" then
        if isdecimal prev then drop_underscores c t else None
      else if Ascii.eqb prev "_" && negb (isdecimal c) then None
      else String c <$> drop_underscores c t
  end.

Fixpoint span_digits (s : string) : string * string :=
  match s with
  | String c t =>
      if isdecimal c then let '(d, r) := span_digits t in (String c d, r)
      else (EmptyString, s)
  | EmptyString => (EmptyString, EmptyString)
  end.

Fixpoint digits_to_Z (s : string) (acc : Z) : Z :=
  match s with
  | String c t => digits_to_Z t (10 * acc + digit_value c)
  | EmptyString => acc
  end.

Definition lower (c : ascii) : ascii :=
  let n := code c in
  if (65 <=? n) && (n <=? 90) then ascii_of_nat (Z.to_nat (n + 32)) else c.

(** A decimal literal [digits [. digits] [e [sign] digits]] with at least
    one digit before the exponent: the integer its digits spell, the power
    of ten that scales it, and how many digits were read. *)
Definition parse_decimal (s : string) : option (Z * Z * Z) :=
  let '(ip, r1) := span_digits s in
  let '(fp, r2) := match r1 with
                   | String "." t => span_digits t
                   | _ => (EmptyString, r1)
                   end in
  let nd := Z.of_nat (String.length ip + String.length fp) in
  let fl := Z.of_nat (String.length fp) in
  let d := digits_to_Z (ip +:+ fp) 0 in
  if nd =? 0 then None
  else match r2 with
       | EmptyString => Some (d, - fl, nd)
       | String c t =>
           if Ascii.eqb (lower c) "e" then
             let '(eneg, t') := strip_sign t in
             match span_digits t' with
             | (String _ _ as ed, EmptyString) =>
                 let x := digits_to_Z ed 0 in
                 Some (d, (if eneg : bool then - x else x) - fl, nd)
             | _ => None
             end
           else None
       end.

(** The float nearest to [d * 10^x] (ties to even), [d] spelt with [nd]
    digits; beyond the range of binary64 the result is an infinity or a
    zero, as [strtod] gives. *)
Definition decimal_to_float (neg : bool) (d x nd : Z) : float :=
  if d =? 0 then SF2Prim (S754_zero neg)
  else if 400 <? x then SF2Prim (S754_infinity neg)
  else if x + nd <? -400 then SF2Prim (S754_zero neg)
  else if 0 <=? x then
    SF2Prim (binary_normalize prec emax (cond_Zopp neg (d * 10 ^ x)) 0 false)
  else
    SF2Prim (SFdiv prec emax (sf_of_Z (cond_Zopp neg d)) (sf_of_Z (10 ^ (- x)))).

(** [float(s)] *)
Definition float_of_str (s : string) : result float :=
  let s := strip_with is_c_space (map_chars blank_unicode_space s) in
  match drop_underscores "000" s with
  | None => Raises ValueError
  | Some s =>
      let '(neg, body) := strip_sign s in
      let word := map_chars lower body in
      if String.eqb word "inf" || String.eqb word "infinity" then
        Returns (SF2Prim (S754_infinity neg))
      else if String.eqb word "nan" then Returns nan
      else match parse_decimal body with
           | Some (d, x, nd) => Returns (decimal_to_float neg d x nd)
           | None => Raises ValueError
           end
  end.

(** *** [re.match(r"^\d{3}$", d)] *)

(** Three decimal digits from the start, then the end of the text; [$]
    also matches just before a line feed that ends the text. *)
Definition re_match_d3 (d : string) : bool :=
  match d with
  | String a (String b (String c rest)) =>
      isdecimal a && isdecimal b && isdecimal c &&
      (String.eqb rest EmptyString || String.eqb rest LF)
  | _ => false
  end.

(** *** [os.path] (POSIX) *)

Definition ends_with_slash (a : string) : bool :=
  match String.rev a with
  | String "/" _ => true
  | _ => false
  end.

(** [os.path.join(a, b)] *)
Definition path_join (a b : string) : string :=
  if String.prefix "/" b then b
  else if String.eqb a EmptyString || ends_with_slash a then a +:+ b
  else a +:+ "/" +:+ b.

(** [os.path.basename(p)] *)
Definition basename (p : string) : string :=
  List.last (split "/" p) EmptyString.

Definition normpath_step (rooted : bool) (acc : list string) (comp : string)
  : list string :=
  if String.eqb comp EmptyString || String.eqb comp "." then acc
  else if negb (String.eqb comp "..")
          || (negb rooted && match acc with [] => true | _ => false end)
          || match acc with c :: _ => String.eqb c ".." | [] => false end
       then comp :: acc
       else List.tl acc.

(** [os.path.normpath(path)]; the components collected so far are kept
    newest first. *)
Definition normpath (path : string) : string :=
  if String.eqb path EmptyString then "."%string
  else
    let rooted := String.prefix "/" path in
    let lead := if rooted then
                  if String.prefix "//" path && negb (String.prefix "///" path)
                  then "//"%string else "/"%string
                else EmptyString in
    let comps := List.fold_left (normpath_step rooted) (split "/" path) [] in
    let out := lead +:+ join "/" (List.rev comps) in
    if String.eqb out EmptyString then "."%string else out.

(** [os.path.abspath(p)] in the working directory [cwd] *)
Definition abspath (cwd p : string) : string :=
  normpath (if String.prefix "/" p then p else path_join cwd p).

(** *** The arithmetic [format_timestamp] performs on its argument *)

(** [v < 0] *)
Definition lt0 (v : value) : result bool :=
  match v with
  | VInt n => Returns (n <? 0)
  | VFloat x => Returns (PrimFloat.ltb x 0%float)
  | VNone | VStr _ => Raises TypeError
  end.

(** [math.floor(v)] *)
Definition math_floor (v : value) : result Z :=
  match v with
  | VInt n => Returns n
  | VFloat x => floor_float x
  | VNone | VStr _ => Raises TypeError
  end.

(** [v - n] for an integer [n] *)
Definition sub_int (v : value) (n : Z) : result value :=
  match v with
  | VInt a => Returns (VInt (a - n))
  | VFloat x => y ← float_of_int n; Returns (VFloat (PrimFloat.sub x y))
  | VNone | VStr _ => Raises TypeError
  end.

(** [v * n] for an integer [n]; the script only multiplies numbers. *)
Definition mul_int (v : value) (n : Z) : result value :=
  match v with
  | VInt a => Returns (VInt (a * n))
  | VFloat x => y ← float_of_int n; Returns (VFloat (PrimFloat.mul x y))
  | VNone | VStr _ => Raises TypeError
  end.

(** [int(round(v))] *)
Definition int_round (v : value) : result Z :=
  match v with
  | VInt a => Returns a
  | VFloat x => round_float x
  | VNone | VStr _ => Raises TypeError
  end.

(** *** [datetime.timedelta] *)

Record timedelta := {
  td_days : Z;
  td_seconds : Z;
  td_microseconds : Z
}.

(** [timedelta(seconds=n)] for an integer [n]: normalised so that
    [0 <= seconds < 86400]; more than 999999999 days overflow. *)
Definition timedelta_seconds (n : Z) : result timedelta :=
  let d := n / 86400 in
  if 999999999 <? Z.abs d then Raises OverflowError
  else Returns {| td_days := d; td_seconds := n mod 86400; td_microseconds := 0 |}.

(** [td.total_seconds()] *)
Definition total_seconds (td : timedelta) : result float :=
  int_truediv ((td_days td * 86400 + td_seconds td) * 10 ^ 6 + td_microseconds td)
              (10 ^ 6).

End Py.

(** ** The script *)

(** [is_youtube_url] *)
Definition is_youtube_url (s : string) : bool :=
  Py.contains "youtube.com" s || Py.contains "youtu.be" s.

(** The four fields [format_timestamp] prints. *)
Record hms := {
  hours : Z;
  minutes : Z;
  secs : Z;
  ms : Z
}.

(** The body of [format_timestamp] up to its [return]. *)
Definition timestamp_fields (seconds : Py.value) : result hms :=
  neg ← Py.lt0 seconds;
  let seconds := if neg : bool then Py.VInt 0 else seconds in
  whole ← Py.math_floor seconds;
  frac ← Py.sub_int seconds whole;
  scaled ← Py.mul_int frac 1000;
  ms ← Py.int_round scaled;
  td ← Py.timedelta_seconds whole;
  ts ← Py.total_seconds td;
  total ← Py.int_of_float ts;
  Returns {| hours := total / 3600;
             minutes := (total mod 3600) / 60;
             secs := total mod 60;
             ms := ms |}.

(** The f-string of the [return]. *)
Definition render_timestamp (t : hms) : string :=
  Py.format_0d 2 (hours t) +:+ ":" +:+ Py.format_0d 2 (minutes t) +:+ ":"
  +:+ Py.format_0d 2 (secs t) +:+ "," +:+ Py.format_0d 3 (ms t).

(** [format_timestamp] *)
Definition format_timestamp (seconds : Py.value) : result string :=
  render_timestamp <$> timestamp_fields seconds.

(** ** State and exceptions *)

(** A computation that threads a state of type [S] and may raise. *)
Definition M (S A : Type) : Type := S → S * result A.

Global Instance M_ret {S} : MRet (M S) := λ A a s, (s, Returns a).
Global Instance M_bind {S} : MBind (M S) := λ A B f m s,
  match m s with
  | (s', Returns a) => f a s'
  | (s', Raises e) => (s', Raises e)
  end.

Definition raise {S A} (e : exn) : M S A := λ s, (s, Raises e).

(** A pure step inside a stateful computation. *)
Definition lift {S A} (r : result A) : M S A := λ s, (s, r).

(** [try: body  except <class> as e: handler(e)] *)
Definition try_except {S A} (body : M S A) (class : exn → bool)
    (handler : exn → M S A) : M S A := λ s,
  match body s with
  | (s', Raises e) => if class e then handler e s' else (s', Raises e)
  | done => done
  end.

(** [for x in l: body(x)] *)
Fixpoint for_each {S A} (body : A → M S unit) (l : list A) : M S unit :=
  match l with
  | [] => mret tt
  | x :: rest => body x;; for_each body rest
  end.

(** [enumerate(l, start)] *)
Fixpoint enumerate {A} (start : Z) (l : list A) : list (Z * A) :=
  match l with
  | [] => []
  | x :: rest => (start, x) :: enumerate (start + 1) rest
  end.

(** [[f(x) for x in l]] where [f] may raise *)
Fixpoint comprehension {A B} (f : A → result B) (l : list A) : result (list B) :=
  match l with
  | [] => Returns []
  | x :: rest => y ← f x; ys ← comprehension f rest; Returns (y :: ys)
  end.

(** ** Subtitles *)

(** A segment is a dictionary; the script reads its keys ["start"],
    ["end"] and ["text"]. *)
Abbreviation segment := (gmap string Py.value).

(** [seg.get(key, fallback)] *)
Definition seg_get (seg : segment) (key : string) (fallback : Py.value) : Py.value :=
  default fallback (seg !! key).

(** [v.strip()]: only a [str] has the method. *)
Definition value_strip (v : Py.value) : result string :=
  match v with
  | Py.VStr s => Returns (Py.strip s)
  | _ => Raises AttributeError
  end.

(** [f.write(text)] on the open file, whose text so far is the state. *)
Definition f_write (text : string) : M string unit :=
  λ f, (f +:+ text, Returns tt).

(** The body of the loop of [write_srt] for one numbered segment. *)
Definition write_cue (cue : Z * segment) : M string unit :=
  let '(i, seg) := cue in
  let start := seg_get seg "start" (Py.VFloat 0) in
  let end_ := seg_get seg "end" (Py.VFloat 0) in
  text ← lift (value_strip (seg_get seg "text" (Py.VStr "")));
  f_write (Py.str_of_int i +:+ Py.LF);;
  t1 ← lift (format_timestamp start);
  t2 ← lift (format_timestamp end_);
  f_write (t1 +:+ " --> " +:+ t2 +:+ Py.LF);;
  f_write (text +:+ Py.LF +:+ Py.LF).

(** The loop of [write_srt], run on a file just opened for writing: the
    text the file holds when it is closed, and how the loop ended. *)
Definition write_cues (segments : list segment) : string * result unit :=
  for_each write_cue (enumerate 1 segments) EmptyString.

(** ** Slot numbers *)

Fixpoint insert_desc (x : Z) (l : list Z) : list Z :=
  match l with
  | [] => [x]
  | y :: rest => if y <=? x then x :: l else y :: insert_desc x rest
  end.

(** [sorted(l, reverse=True)] *)
Definition sorted_desc (l : list Z) : list Z := foldr insert_desc [] l.

(** The name [next_output_folder] gives the new folder, from the names
    [os.listdir(base)] returned. *)
Definition next_folder_name (names : list string) : result string :=
  let existing := List.filter Py.re_match_d3 names in
  nums ← sorted_desc <$> comprehension Py.int_of_str existing;
  let next_num := match nums with
                  | [] => 1
                  | top :: _ => top + 1
                  end in
  Returns (Py.format_0d 3 next_num).

(** ** The operating environment *)

(** An entry of a directory: its name, and whether it is a directory. *)
Record dirent := {
  d_name : string;
  d_is_dir : bool
}.

(** How a child process ended: with an exit status and what it had
    written to its standard output, or without ever being started. *)
Inductive proc_outcome :=
| Exited (status : Z) (out : captured)
| NotStarted.

(** What the script writes to a file: text, or [str(x)] of a float, which
    it never inspects. *)
Inductive file_text :=
| Text (s : string)
| ReprOf (x : float).

(** How [parser.parse_args()] ends on the command line of the process:
    with the one positional argument, [input]; with [SystemExit(2)], after
    [argparse] has printed a usage error; or with [SystemExit(0)], after it
    has printed the help. *)
Inductive parsed :=
| Parsed (input : string)
| UsageError
| HelpShown.

(** The lines the script prints, one constructor for each [print] and
    [sys.stderr.write]. *)
Inductive message :=
| ErrFfmpegMissing
| ErrYtDlpMissing
| ErrInputNotFound (path : string)
| MsgDownloading (url : string)
| MsgMediaMoved (dest : string)
| MsgFpsWarning (e : exn)
| MsgDetectedFps (fps : float)
| MsgTranscribing
| MsgNoSegments
| MsgSrtSaved (path : string)
| MsgRunning (cmdline : string)
| MsgToolError (output : string)
| MsgFcpxMoved (dest : string)
| MsgFcpxAlready (dest : string)
| MsgFcpxNotFound.

(** What [model.transcribe] returns: a dictionary whose ["segments"] key
    holds the list of segments. *)
Abbreviation transcript := (gmap string (list segment)).

(** Every interaction of the script with its environment, with the answer
    it received. *)
Inductive event :=
| EParseArgs (outcome : parsed)
| EWhich (name : string) (found : bool)
| EIsFile (path : string) (answer : bool)
| EGetCwd (cwd : string)
| EMakeDirs (path : string) (ok : bool)
| EListDir (path : string) (entries : option (list dirent))
| EMove (src dst : string) (ok : bool)
| EOpen (path : string) (ok : bool)
| EWritten (path : string) (content : file_text)
| ERun (cmd : list string) (outcome : proc_outcome)
| EImport (module : string) (ok : bool)
| EDownload (url outtmpl : string) (file : option string)
| ECuda (available : bool)
| ELoadModel (name device : string) (ok : bool)
| ETranscribe (path : string) (answer : option transcript)
| EStdout (m : message)
| EStderr (m : message).

(** The environment: for each kind of interaction, how the world answers
    and how it changes.  Failing answers ([false], [None]) stand for the
    exception the Python call raises. *)
Record environment (W : Type) := {
  env_parse_args : W → W * parsed;
  env_which : string → W → W * bool;
  env_isfile : string → W → W * bool;
  env_getcwd : W → W * string;
  env_makedirs : string → W → W * bool;
  env_listdir : string → W → W * option (list dirent);
  env_move : string → string → W → W * bool;
  env_open : string → W → W * bool;
  env_written : string → file_text → W → W;
  env_run : list string → W → W * proc_outcome;
  env_import : string → W → W * bool;
  env_download : string → string → W → W * option string;
  env_cuda : W → W * bool;
  env_load_model : string → string → W → W * bool;
  env_transcribe : string → W → W * option transcript
}.
Arguments env_parse_args {W}.
Arguments env_which {W}.
Arguments env_isfile {W}.
Arguments env_getcwd {W}.
Arguments env_makedirs {W}.
Arguments env_listdir {W}.
Arguments env_move {W}.
Arguments env_open {W}.
Arguments env_written {W}.
Arguments env_run {W}.
Arguments env_import {W}.
Arguments env_download {W}.
Arguments env_cuda {W}.
Arguments env_load_model {W}.
Arguments env_transcribe {W}.

(** The state of a run: the world, and the events so far, newest first. *)
Record state (W : Type) := {
  world : W;
  trace : list event
}.
Arguments world {W}.
Arguments trace {W}.

Section Script.
Context {W : Type} (E : environment W).

Abbreviation OS := (M (state W)).

(** One interaction: ask the world, record the answer. *)
Definition ask {A} (h : W → W * A) (ev : A → event) : OS A := λ s,
  let '(w, a) := h (world s) in
  ({| world := w; trace := ev a :: trace s |}, Returns a).

Definition emit (ev : event) : OS unit := λ s,
  ({| world := world s; trace := ev :: trace s |}, Returns tt).

(** An interaction that raises when the world refuses. *)
Definition demand (h : W → W * bool) (ev : bool → event) (e : exn) : OS unit :=
  ok ← ask h ev;
  if ok : bool then mret tt else raise e.

Definition expect {A} (h : W → W * option A) (ev : option A → event) (e : exn)
  : OS A :=
  r ← ask h ev;
  match r with
  | Some a => mret a
  | None => raise e
  end.

(** [print(...)] *)
Definition print (m : message) : OS unit := emit (EStdout m).

(** [sys.stderr.write(...)] *)
Definition stderr_write (m : message) : OS unit := emit (EStderr m).

(** [sys.exit(n)] *)
Definition sys_exit {A} (n : Z) : OS A := raise (SystemExit n).

(** [shutil.which(name) is not None] *)
Definition which (name : string) : OS bool := ask (env_which E name) (EWhich name).

(** [os.path.isfile(path)] *)
Definition isfile (path : string) : OS bool :=
  ask (env_isfile E path) (EIsFile path).

(** [os.getcwd()] *)
Definition getcwd : OS string := ask (env_getcwd E) EGetCwd.

(** [os.path.abspath(path)] *)
Definition abspath (path : string) : OS string :=
  if String.prefix "/" path then mret (Py.normpath path)
  else cwd ← getcwd; mret (Py.normpath (Py.path_join cwd path)).

(** [os.makedirs(path, exist_ok=True)] *)
Definition makedirs (path : string) : OS unit :=
  demand (env_makedirs E path) (EMakeDirs path) OSError.

(** [os.listdir(path)]: the names of all the entries, of whatever kind. *)
Definition listdir (path : string) : OS (list string) :=
  entries ← expect (env_listdir E path) (EListDir path) OSError;
  mret (d_name <$> entries).

(** [shutil.move(src, dst)] *)
Definition shutil_move (src dst : string) : OS unit :=
  demand (env_move E src dst) (EMove src dst) OSError.

(** [open(path, "w")] *)
Definition open_w (path : string) : OS unit :=
  demand (env_open E path) (EOpen path) OSError.

(** Leaving the [with] block closes the file: [content] is on disk. *)
Definition close (path : string) (content : file_text) : OS unit := λ s,
  ({| world := env_written E path content (world s);
      trace := EWritten path content :: trace s |}, Returns tt).

(** [subprocess.check_output(cmd)] *)
Definition check_output (cmd : list string) : OS captured :=
  r ← ask (env_run E cmd) (ERun cmd);
  match r with
  | Exited status out =>
      if status =? 0 then mret out else raise (CalledProcessError status out)
  | NotStarted => raise OSError
  end.

(** [b.decode()] *)
Definition decode (b : captured) : result string :=
  match b with
  | Utf8 text => Returns text
  | NotUtf8 => Raises UnicodeDecodeError
  end.

(** [import name] *)
Definition import (name : string) : OS unit :=
  demand (env_import E name) (EImport name) ImportError.

(** [parser.parse_args().input] for the parser [main] builds, with its one
    positional argument: [argparse] itself ends the process on a usage
    error and after [-h]. *)
Definition parse_args : OS string :=
  r ← ask (env_parse_args E) EParseArgs;
  match r with
  | Parsed input => mret input
  | UsageError => sys_exit 2
  | HelpShown => sys_exit 0
  end.

(** *** [check_ffmpeg] *)

Definition check_ffmpeg : OS unit :=
  ffmpeg ← which "ffmpeg";
  missing ← (if ffmpeg : bool then ffprobe ← which "ffprobe"; mret (negb ffprobe)
             else mret true);
  if missing : bool then stderr_write ErrFfmpegMissing;; sys_exit 1
  else mret tt.

(** *** [download_youtube] *)

Definition download_youtube (url download_dir : string) : OS string :=
  try_except (import "yt_dlp")
    (λ e, match e with ImportError => true | _ => false end)
    (λ _, stderr_write ErrYtDlpMissing;; sys_exit 1);;
  makedirs download_dir;;
  let outtmpl := Py.path_join download_dir "video.%(ext)s" in
  print (MsgDownloading url);;
  expect (env_download E url outtmpl) (EDownload url outtmpl) CollaboratorError.

(** *** [next_output_folder] *)

Definition next_output_folder (base : string) : OS string :=
  makedirs base;;
  names ← listdir base;
  folder_name ← lift (next_folder_name names);
  let out_path := Py.path_join base folder_name in
  makedirs out_path;;
  mret out_path.

(** *** [write_srt] *)

Definition write_srt (segments : list segment) (out_path : string) : OS unit :=
  open_w out_path;;
  let '(f, ended) := write_cues segments in
  close out_path (Text f);;
  lift ended.

(** *** [detect_fps] *)

Definition ffprobe_cmd (video_path : string) : list string :=
  ["ffprobe"; "-v"; "0"; "-of"; "csv=p=0"; "-select_streams"; "v:0";
   "-show_entries"; "stream=r_frame_rate"; video_path]%string.

(** From the text [ffprobe] printed to the frame rate. *)
Definition parse_fps (out : captured) : result float :=
  text ← decode out;
  let output := Py.strip text in
  fps ← (if Py.contains "/" output then
           match Py.split "/" output with
           | [num; den] =>
               n ← Py.float_of_str num;
               d ← Py.float_of_str den;
               Py.float_truediv n d
           | _ => Raises ValueError
           end
         else Py.float_of_str output);
  Returns (Py.round_ndigits fps 3).

(** The [try] block of [detect_fps]. *)
Definition probe_fps (video_path : string) : OS float :=
  out ← check_output (ffprobe_cmd video_path);
  lift (parse_fps out).

Definition detect_fps (video_path : string) : OS float :=
  try_except (probe_fps video_path) is_Exception
    (λ e, print (MsgFpsWarning e);; mret 24%float).

(** *** [run_node_srt2subtitles] *)

Definition run_node_srt2subtitles (srt_path : string) (fps : float)
    (out_folder : string) : OS (option string) :=
  n ← lift (Py.int_of_float fps);
  let cmd := ["srt2subtitles"%string; srt_path; Py.str_of_int n] in
  print (MsgRunning (Py.join " " cmd));;
  try_except
    (check_output cmd;; mret (Some "subtitles.fcpxml"%string))
    (λ e, match e with CalledProcessError _ _ => true | _ => false end)
    (λ e, match e with
          | CalledProcessError _ output =>
              text ← lift (decode output);
              print (MsgToolError text);;
              mret None
          | _ => raise e
          end).

(** *** [main] *)

(** Step 1 of [main], "Download or verify file": the value it leaves in
    [input_file]. *)
Definition acquire_input (input_path : string) : OS string :=
  if is_youtube_url input_path then download_youtube input_path "temp_dl"
  else
    found ← isfile input_path;
    if found : bool then mret input_path
    else stderr_write (ErrInputNotFound input_path);; sys_exit 1.

Definition main : OS unit :=
  args_input ← parse_args;
  check_ffmpeg;;
  let input_path := args_input in
  (* 1. Download or verify file *)
  input_file ← acquire_input input_path;
  (* 2. Create output folder *)
  out_folder ← next_output_folder "output";
  (* 3. Move video into folder *)
  let media_name := Py.basename input_file in
  let dest_media_path := Py.path_join out_folder media_name in
  dest_abs ← abspath dest_media_path;
  input_abs ← abspath input_file;
  input_file ← (if String.eqb dest_abs input_abs then mret input_file
                else shutil_move input_file dest_media_path;;
                     mret dest_media_path);
  print (MsgMediaMoved dest_media_path);;
  (* 4. Detect frame rate *)
  fps ← detect_fps input_file;
  print (MsgDetectedFps fps);;
  let framerate_txt := Py.path_join out_folder "framerate.txt" in
  open_w framerate_txt;;
  close framerate_txt (ReprOf fps);;
  (* 5. Transcribe *)
  import "torch";;
  import "whisper";;
  cuda ← ask (env_cuda E) ECuda;
  let device := if cuda : bool then "cuda"%string else "cpu"%string in
  demand (env_load_model E "base" device) (ELoadModel "base" device)
         CollaboratorError;;
  print MsgTranscribing;;
  result ← expect (env_transcribe E input_file) (ETranscribe input_file)
                  CollaboratorError;
  let segments := default [] (result !! "segments") in
  match segments with
  | [] => print MsgNoSegments;; sys_exit 1
  | _ :: _ =>
      let srt_path := Py.path_join out_folder "subtitles.srt" in
      write_srt segments srt_path;;
      print (MsgSrtSaved srt_path);;
      (* 6. Run node conversion *)
      converted ← run_node_srt2subtitles srt_path fps out_folder;
      let fcpx_file := "subtitles.fcpxml"%string in
      cwd ← getcwd;
      let fcpx_src := Py.path_join cwd fcpx_file in
      let fcpx_dest := Py.path_join out_folder fcpx_file in
      in_cwd ← isfile fcpx_src;
      if in_cwd : bool then
        shutil_move fcpx_src fcpx_dest;;
        print (MsgFcpxMoved fcpx_dest)
      else
        in_dest ← isfile fcpx_dest;
        if in_dest : bool then print (MsgFcpxAlready fcpx_dest)
        else print MsgFcpxNotFound
  end.

(** A run from a world [w]: the events in the order they happened, and
    how the computation ended. *)
Definition run {A} (m : OS A) (w : W) : list event * result A :=
  let '(s, r) := m {| world := w; trace := [] |} in (List.rev (trace s), r).

End Script.

(** ** A scripted environment *)

(** Canned answers, for concrete runs: nothing the run does changes them. *)
Record script := {
  sc_args : parsed;                  (* what the command line parses to *)
  sc_path : list string;             (* the programs [shutil.which] finds *)
  sc_files : list string;            (* the paths that are existing files *)
  sc_cwd : string;
  sc_entries : option (list dirent); (* what the base directory holds *)
  sc_probe : proc_outcome;           (* how [ffprobe] ends *)
  sc_convert : proc_outcome;         (* how [srt2subtitles] ends *)
  sc_modules : list string;          (* the modules that can be imported *)
  sc_cuda : bool;
  sc_download : option string;
  sc_transcript : option transcript
}.

Definition mem (x : string) (l : list string) : bool :=
  List.existsb (String.eqb x) l.

Definition scripted (sc : script) : environment unit := {|
  env_parse_args w := (w, sc_args sc);
  env_which name w := (w, mem name (sc_path sc));
  env_isfile path w := (w, mem path (sc_files sc));
  env_getcwd w := (w, sc_cwd sc);
  env_makedirs _ w := (w, true);
  env_listdir _ w := (w, sc_entries sc);
  env_move _ _ w := (w, true);
  env_open _ w := (w, true);
  env_written _ _ w := w;
  env_run cmd w :=
    (w, match cmd with
        | "ffprobe"%string :: _ => sc_probe sc
        | "srt2subtitles"%string :: _ => sc_convert sc
        | _ => NotStarted
        end);
  env_import name w := (w, mem name (sc_modules sc));
  env_download _ _ w := (w, sc_download sc);
  env_cuda w := (w, sc_cuda sc);
  env_load_model _ _ w := (w, true);
  env_transcribe _ w := (w, sc_transcript sc)
|}.

(** Two segments, as the speech-to-text model returns them. *)
Definition seg (start end_ : float) (text : string) : segment :=
  {[ "start"%string := Py.VFloat start;
     "end"%string := Py.VFloat end_;
     "text"%string := Py.VStr text ]}.

Definition hello_world : list segment :=
  [seg 0 1.5 "Hello"; seg 1.5 3 "World  "].

(** A machine on which everything works: a command line that names the
    local file [talk.mp4], an empty [output] directory, a 30000/1001 video,
    a converter that succeeds. *)
Definition healthy : script := {|
  sc_args := Parsed "talk.mp4";
  sc_path := ["ffmpeg"; "ffprobe"; "srt2subtitles"]%string;
  sc_files := ["talk.mp4"]%string;
  sc_cwd := "/home/user";
  sc_entries := Some [];
  sc_probe := Exited 0 (Utf8 ("30000/1001" +:+ Py.LF));
  sc_convert := Exited 0 (Utf8 "");
  sc_modules := ["yt_dlp"; "torch"; "whisper"]%string;
  sc_cuda := false;
  sc_download := Some "temp_dl/video.mp4"%string;
  sc_transcript := Some {[ "segments"%string := hello_world ]}
|}.

(** ** What the properties speak about *)

(** The text of one cue block: the index, the two timestamps, the text,
    and the blank line that ends the block. *)
Definition cue_block (i : Z) (t1 t2 text : string) : string :=
  Py.str_of_int i +:+ Py.LF +:+ t1 +:+ " --> " +:+ t2 +:+ Py.LF
  +:+ text +:+ Py.LF +:+ Py.LF.

(** The timestamp printed for the offset stored under [key]: the one of
    0.0 when the key is missing. *)
Definition stamp (seg : segment) (key : string) (t : string) : Prop :=
  match seg !! key with
  | None => t = "00:00:00,000"%string
  | Some v => format_timestamp v = Returns t
  end.

(** The text printed for a segment: its ["text"] trimmed, or nothing when
    the key is missing. *)
Definition cue_text (seg : segment) (text : string) : Prop :=
  match seg !! "text"%string with
  | None => text = EmptyString
  | Some (Py.VStr s) => text = Py.strip s
  | Some _ => False
  end.

(** [block] is the cue block of the numbered segment [cue]. *)
Definition cue_of (cue : Z * segment) (block : string) : Prop :=
  ∃ t1 t2 text,
    stamp cue.2 "start" t1 ∧ stamp cue.2 "end" t2 ∧ cue_text cue.2 text ∧
    block = cue_block cue.1 t1 t2 text.

(** The state [write_srt] leaves behind once [text] is in the file. *)
Definition wrote {W} (E : environment W) (path text : string) (w : W)
    (s : state W) : state W :=
  {| world := env_written E path (Text text) w;
     trace := EWritten path (Text text) :: EOpen path true :: trace s |}.

(** [blocks] holds one cue block for each segment, in the order of the
    segments and numbered from 1. *)
Definition blocks_of (segments : list segment) (blocks : list string) : Prop :=
  length blocks = length segments ∧
  ∀ (i : nat) seg, segments !! i = Some seg →
    ∃ block, blocks !! i = Some block ∧ cue_of (Z.of_nat i + 1, seg) block.

(** The two segments of the specification's example and the file they
    give. *)
Definition hello_world_srt : string :=
  "1" +:+ Py.LF +:+ "00:00:00,000 --> 00:00:01,500" +:+ Py.LF
  +:+ "Hello" +:+ Py.LF +:+ Py.LF
  +:+ "2" +:+ Py.LF +:+ "00:00:01,500 --> 00:00:03,000" +:+ Py.LF
  +:+ "World" +:+ Py.LF +:+ Py.LF.

(** Every field of the segment can be printed: an offset is missing or
    has a timestamp, the text is missing or a string. *)
Definition renders (seg : segment) : Prop :=
  (∃ t1, stamp seg "start" t1) ∧ (∃ t2, stamp seg "end" t2) ∧
  (∃ text, cue_text seg text).

(** A segment with a text only. *)
Definition text_only : segment := {[ "text"%string := Py.VStr " no times " ]}.

(** A segment with no ["start"]. *)
Definition no_start : segment :=
  {[ "end"%string := Py.VFloat 1.5; "text"%string := Py.VStr " Hi " ]}.

(** A name made of exactly three decimal digits. *)
Definition three_digits (name : string) : bool :=
  match name with
  | String a (String b (String c EmptyString)) =>
      Py.isdecimal a && Py.isdecimal b && Py.isdecimal c
  | _ => false
  end.

(** The number the first three characters of a name spell. *)
Definition slot_number (name : string) : Z :=
  Py.digits_to_Z (String.substring 0 3 name) 0.

(** The greatest number among the names [pick] selects, plus one; 1 when
    it selects none. *)
Definition next_slot (pick : string → bool) (names : list string) : Z :=
  foldr Z.max 0 (slot_number <$> List.filter pick names) + 1.

(** The slot the specification describes: only names of exactly three
    decimal digits count. *)
Definition claimed_slot (names : list string) : Z := next_slot three_digits names.

Definition dir (name : string) : dirent := {| d_name := name; d_is_dir := true |}.
Definition file (name : string) : dirent := {| d_name := name; d_is_dir := false |}.

(** The healthy machine with other entries in the base directory. *)
Definition with_entries (entries : list dirent) : script := {|
  sc_args := sc_args healthy;
  sc_path := sc_path healthy;
  sc_files := sc_files healthy;
  sc_cwd := sc_cwd healthy;
  sc_entries := Some entries;
  sc_probe := sc_probe healthy;
  sc_convert := sc_convert healthy;
  sc_modules := sc_modules healthy;
  sc_cuda := sc_cuda healthy;
  sc_download := sc_download healthy;
  sc_transcript := sc_transcript healthy
|}.

(** The frame rate [detect_fps] returns for a given end of [ffprobe]. *)
Definition fps_of (outcome : proc_outcome) : float :=
  match outcome with
  | Exited 0 out =>
      match parse_fps out with
      | Returns fps => fps
      | Raises _ => 24%float
      end
  | _ => 24%float
  end.

(** The healthy machine with another end of [ffprobe]. *)
Definition with_probe (outcome : proc_outcome) : script := {|
  sc_args := sc_args healthy;
  sc_path := sc_path healthy;
  sc_files := sc_files healthy;
  sc_cwd := sc_cwd healthy;
  sc_entries := sc_entries healthy;
  sc_probe := outcome;
  sc_convert := sc_convert healthy;
  sc_modules := sc_modules healthy;
  sc_cuda := sc_cuda healthy;
  sc_download := sc_download healthy;
  sc_transcript := sc_transcript healthy
|}.

(** The host of a URL [scheme://[user@]host[:port][/path][?query][#fragment]];
    a text without [://] has none. *)
Fixpoint after_scheme (s : string) : option string :=
  match s with
  | EmptyString => None
  | String c t =>
      if String.prefix "://" s then Some (String.substring 3 (String.length s) s)
      else after_scheme t
  end.

Fixpoint take_until (stop : ascii → bool) (s : string) : string :=
  match s with
  | EmptyString => EmptyString
  | String c t => if stop c then EmptyString else String c (take_until stop t)
  end.

Definition url_hostname (s : string) : option string :=
  rest ← after_scheme s;
  let authority :=
    take_until (λ c, Ascii.eqb c "/" || Ascii.eqb c "?" || Ascii.eqb c "#") rest in
  let hostport := List.last (Py.split "@" authority) EmptyString in
  Some (take_until (Ascii.eqb ":") hostport).

(** The rule as the specification words it: the hostname of the URL
    contains one of the two domains. *)
Definition hostname_is_known (s : string) : bool :=
  match url_hostname s with
  | Some host => Py.contains "youtube.com" host || Py.contains "youtu.be" host
  | None => false
  end.

(** The healthy machine started on another command line. *)
Definition with_args (args : parsed) : script := {|
  sc_args := args;
  sc_path := sc_path healthy;
  sc_files := sc_files healthy;
  sc_cwd := sc_cwd healthy;
  sc_entries := sc_entries healthy;
  sc_probe := sc_probe healthy;
  sc_convert := sc_convert healthy;
  sc_modules := sc_modules healthy;
  sc_cuda := sc_cuda healthy;
  sc_download := sc_download healthy;
  sc_transcript := sc_transcript healthy
|}.

(** The trace of a run that has read [input] from the command line and
    found both programs. *)
Definition preflight_passed (input : string) : list event :=
  [EParseArgs (Parsed input); EWhich "ffmpeg" true; EWhich "ffprobe" true].

(** The event is no part of a download: it neither imports [yt_dlp] nor
    downloads anything. *)
Definition no_download (ev : event) : Prop :=
  match ev with
  | EImport m _ => m ≠ "yt_dlp"%string
  | EDownload _ _ _ => False
  | _ => True
  end.

(** Events that create or change nothing: reading the command line,
    looking for a program, testing for a file, writing to the standard
    error. *)
Definition harmless (ev : event) : Prop :=
  match ev with
  | EParseArgs _ | EWhich _ _ | EIsFile _ _ | EStderr _ => True
  | _ => False
  end.

(** [m] only ever adds events that satisfy [P] to the trace. *)
Definition quiet {W A} (P : event → Prop) (m : M (state W) A) : Prop :=
  ∀ s s' r, m s = (s', r) → ∃ new, trace s' = new ++ trace s ∧ Forall P new.

(** Before the transcription: no transcription yet, and no file opened or
    written but [framerate.txt]. *)
Definition before_transcribing (ev : event) : Prop :=
  match ev with
  | ETranscribe _ _ => False
  | EOpen p _ | EWritten p _ => Py.basename p = "framerate.txt"%string
  | _ => True
  end.

Definition not_transcribing (ev : event) : Prop :=
  match ev with
  | ETranscribe _ _ => False
  | _ => True
  end.

Fixpoint no_slash (s : string) : bool :=
  match s with
  | EmptyString => true
  | String c t => negb (Ascii.eqb c "/") && no_slash t
  end.

(** The event neither opens nor writes a file called [subtitles.srt]. *)
Definition no_subtitles (ev : event) : Prop :=
  match ev with
  | EOpen p _ | EWritten p _ => Py.basename p ≠ "subtitles.srt"%string
  | _ => True
  end.

(** The healthy machine with another answer of the speech-to-text model. *)
Definition with_transcript (answer : option transcript) : script := {|
  sc_args := sc_args healthy;
  sc_path := sc_path healthy;
  sc_files := sc_files healthy;
  sc_cwd := sc_cwd healthy;
  sc_entries := sc_entries healthy;
  sc_probe := sc_probe healthy;
  sc_convert := sc_convert healthy;
  sc_modules := sc_modules healthy;
  sc_cuda := sc_cuda healthy;
  sc_download := sc_download healthy;
  sc_transcript := answer
|}.

(** The healthy machine with another end of [srt2subtitles]. *)
Definition with_convert (outcome : proc_outcome) : script := {|
  sc_args := sc_args healthy;
  sc_path := sc_path healthy;
  sc_files := sc_files healthy;
  sc_cwd := sc_cwd healthy;
  sc_entries := sc_entries healthy;
  sc_probe := sc_probe healthy;
  sc_convert := outcome;
  sc_modules := sc_modules healthy;
  sc_cuda := sc_cuda healthy;
  sc_download := sc_download healthy;
  sc_transcript := sc_transcript healthy
|}.

(** The command line [run_node_srt2subtitles] builds. *)
Definition srt2subtitles_cmd (srt_path : string) (n : Z) : list string :=
  ["srt2subtitles"%string; srt_path; Py.str_of_int n].

(** Before the conversion: [srt2subtitles] has not been run. *)
Definition before_converting (ev : event) : Prop :=
  match ev with
  | ERun ("srt2subtitles"%string :: _) _ => False
  | _ => True
  end.

(** [v] is an [int] or a [float]. *)
Definition is_number (v : Py.value) : bool :=
  match v with
  | Py.VInt _ | Py.VFloat _ => true
  | Py.VNone | Py.VStr _ => false
  end.

(** The exceptions arithmetic on numbers raises in [format_timestamp]. *)
Definition numeric_error (e : exn) : Prop := e = ValueError ∨ e = OverflowError.

(** The healthy machine with a base directory that cannot be listed. *)
Definition unreadable_base : script := {|
  sc_args := sc_args healthy;
  sc_path := sc_path healthy;
  sc_files := sc_files healthy;
  sc_cwd := sc_cwd healthy;
  sc_entries := None;
  sc_probe := sc_probe healthy;
  sc_convert := sc_convert healthy;
  sc_modules := sc_modules healthy;
  sc_cuda := sc_cuda healthy;
  sc_download := sc_download healthy;
  sc_transcript := sc_transcript healthy
|}.

(** The healthy machine without [ffmpeg] on the path. *)
Definition without_ffmpeg : script := {|
  sc_args := sc_args healthy;
  sc_path := ["ffprobe"; "srt2subtitles"]%string;
  sc_files := sc_files healthy;
  sc_cwd := sc_cwd healthy;
  sc_entries := sc_entries healthy;
  sc_probe := sc_probe healthy;
  sc_convert := sc_convert healthy;
  sc_modules := sc_modules healthy;
  sc_cuda := sc_cuda healthy;
  sc_download := sc_download healthy;
  sc_transcript := sc_transcript healthy
|}.

(** The healthy machine without the [yt_dlp] module. *)
Definition without_yt_dlp : script := {|
  sc_args := sc_args healthy;
  sc_path := sc_path healthy;
  sc_files := sc_files healthy;
  sc_cwd := sc_cwd healthy;
  sc_entries := sc_entries healthy;
  sc_probe := sc_probe healthy;
  sc_convert := sc_convert healthy;
  sc_modules := ["torch"; "whisper"]%string;
  sc_cuda := sc_cuda healthy;
  sc_download := sc_download healthy;
  sc_transcript := sc_transcript healthy
|}.

(** An environment like [E] in which no file can be opened for writing. *)
Definition read_only {W} (E : environment W) : environment W := {|
  env_parse_args := env_parse_args E;
  env_which := env_which E;
  env_isfile := env_isfile E;
  env_getcwd := env_getcwd E;
  env_makedirs := env_makedirs E;
  env_listdir := env_listdir E;
  env_move := env_move E;
  env_open _ w := (w, false);
  env_written := env_written E;
  env_run := env_run E;
  env_import := env_import E;
  env_download := env_download E;
  env_cuda := env_cuda E;
  env_load_model := env_load_model E;
  env_transcribe := env_transcribe E
|}.

(** Reading the command line, looking for the two programs and
    complaining that one is missing. *)
Definition preflight_only (ev : event) : Prop :=
  match ev with
  | EParseArgs (Parsed _) | EWhich _ _ | EStderr ErrFfmpegMissing => True
  | _ => False
  end.

(** The folder of a run: [output/NNN], with a number from 1 to 1000. *)
Definition run_folder (p : string) : Prop :=
  ∃ k, 1 <= k <= 1000 ∧ p = "output/" +:+ Py.format_0d 3 k.

(** What [main] asks of its environment.  It creates no other directory
    than [temp_dl], [output] and a run folder; it opens and writes no other
    file than the [framerate.txt] and the [subtitles.srt] of a run folder;
    it moves files nowhere but straight into a run folder; it starts no
    other program than [ffprobe] and, on the [subtitles.srt] of a run
    folder, [srt2subtitles]; it has the download write to
    [temp_dl/video.<ext>]; it looks for no other program than [ffmpeg] and
    [ffprobe], lists no other directory than [output], imports no other
    module than [yt_dlp], [torch] and [whisper], and loads no other model
    than [base].  Reading the command line, testing for a file, asking for
    the working directory or the accelerator, transcribing and printing
    are not restricted. *)
Definition own_effects (ev : event) : Prop :=
  match ev with
  | EMakeDirs p _ =>
      p = "temp_dl"%string ∨ p = "output"%string ∨ run_folder p
  | EOpen p _ | EWritten p _ =>
      ∃ folder, run_folder folder ∧
                (p = folder +:+ "/framerate.txt" ∨ p = folder +:+ "/subtitles.srt")
  | EMove _ dst _ =>
      ∃ folder name, run_folder folder ∧ no_slash name = true ∧
                     dst = folder +:+ "/" +:+ name
  | ERun cmd _ =>
      (∃ media, cmd = ffprobe_cmd media) ∨
      (∃ folder n, run_folder folder ∧
                   cmd = srt2subtitles_cmd (folder +:+ "/subtitles.srt") n)
  | EDownload _ outtmpl _ => outtmpl = "temp_dl/video.%(ext)s"%string
  | EWhich name _ => name = "ffmpeg"%string ∨ name = "ffprobe"%string
  | EListDir p _ => p = "output"%string
  | EImport m _ => m = "yt_dlp"%string ∨ m = "torch"%string ∨ m = "whisper"%string
  | ELoadModel name _ _ => name = "base"%string
  | EParseArgs _ | EIsFile _ _ | EGetCwd _ | ECuda _ | ETranscribe _ _
  | EStdout _ | EStderr _ => True
  end.

Definition any_event (ev : event) : Prop := True.



(** * Properties *)

(** ** Timestamps *)

Lemma fmap_Returns {A B} (f : A → B) (r : result A) (b : B) :
  f <$> r = Returns b → ∃ a, r = Returns a ∧ b = f a.
Proof. destruct r as [a|e]; simpl; [|discriminate]. intros [= <-]. by exists a. Qed.

Lemma bind_Returns {A B} (f : A → result B) (r : result A) (b : B) :
  r ≫= f = Returns b → ∃ a, r = Returns a ∧ f a = Returns b.
Proof. destruct r as [a|e]; simpl; [|discriminate]. intros H. by exists a. Qed.

(** Whatever the input, the minutes and the seconds [format_timestamp]
    computes lie between 0 and 59. *)
Lemma timestamp_fields_range (v : Py.value) (t : hms) :
  timestamp_fields v = Returns t →
  0 <= minutes t < 60 ∧ 0 <= secs t < 60.
Proof.
  unfold timestamp_fields. intros H.
  repeat (apply bind_Returns in H as (? & _ & H)).
  injection H as <-. simpl. split.
  - split; [apply Z.div_pos; [apply Z.mod_pos_bound|]; lia|].
    apply Z.div_lt_upper_bound; [lia|]. apply Z.mod_pos_bound. lia.
  - apply Z.mod_pos_bound. lia.
Qed.

(** A number from 0 to 99 is printed with exactly two characters. *)
Lemma format_0d_2_length (n : Z) :
  0 <= n < 100 → String.length (Py.format_0d 2 n) = 2%nat.
Proof.
  intros Hn.
  assert (H : List.forallb
                (λ k, Nat.eqb (String.length (Py.format_0d 2 (Z.of_nat k))) 2)
                (List.seq 0 100) = true) by (vm_compute; reflexivity).
  rewrite List.forallb_forall in H.
  specialize (H (Z.to_nat n)). rewrite Z2Nat.id in H by lia.
  apply Nat.eqb_eq, H, List.in_seq. lia.
Qed.

(** The minutes and seconds fields always have two characters. *)
Lemma minutes_secs_two_digits (v : Py.value) (t : hms) :
  timestamp_fields v = Returns t →
  String.length (Py.format_0d 2 (minutes t)) = 2%nat ∧
  String.length (Py.format_0d 2 (secs t)) = 2%nat.
Proof.
  intros H. apply timestamp_fields_range in H as [Hm Hs].
  split; apply format_0d_2_length; lia.
Qed.

(** A negative argument, integer or float, is replaced by the integer 0. *)
Lemma format_timestamp_negative (v : Py.value) :
  Py.lt0 v = Returns true → format_timestamp v = Returns "00:00:00,000"%string.
Proof.
  intros H. unfold format_timestamp, timestamp_fields. rewrite H. simpl.
  vm_compute. reflexivity.
Qed.

(** C7: [format_timestamp] clamps a negative argument to zero without
    raising: everything below zero, and [-5] and [0] in particular, gives
    ["00:00:00,000"]; and [format_timestamp(3725.4567)] is
    ["01:02:05,457"], the 456.7 ms being rounded up. *)
Theorem format_timestamp_clamps_negative :
  (∀ v, Py.lt0 v = Returns true →
        format_timestamp v = Returns "00:00:00,000"%string) ∧
  format_timestamp (Py.VInt (-5)) = Returns "00:00:00,000"%string ∧
  format_timestamp (Py.VFloat (-5)) = Returns "00:00:00,000"%string ∧
  format_timestamp (Py.VInt 0) = Returns "00:00:00,000"%string ∧
  format_timestamp (Py.VFloat 0) = Returns "00:00:00,000"%string ∧
  format_timestamp (Py.VFloat 3725.4567) = Returns "01:02:05,457"%string.
Proof.
  split; [exact format_timestamp_negative|].
  repeat split; vm_compute; reflexivity.
Qed.

Lemma format_timestamp_clamps_negative_witness :
  Py.lt0 (Py.VFloat (-0.25)) = Returns true ∧
  format_timestamp (Py.VFloat (-0.25)) = Returns "00:00:00,000"%string.
Proof.
  split; [vm_compute; reflexivity|].
  apply (proj1 format_timestamp_clamps_negative). vm_compute. reflexivity.
Defined.

(** C5: the milliseconds are the fraction times 1000, rounded, and the
    rounding can reach 1000, which is printed with four digits and not
    carried into the seconds: [format_timestamp(0.9996)] is
    ["00:00:00,1000"], where a three-digit field was meant. *)
Theorem format_timestamp_ms_four_digits :
  timestamp_fields (Py.VFloat 0.9996)
    = Returns {| hours := 0; minutes := 0; secs := 0; ms := 1000 |} ∧
  format_timestamp (Py.VFloat 0.9996) = Returns "00:00:00,1000"%string.
Proof. split; vm_compute; reflexivity. Qed.

(** ** Subtitle files *)

Lemma append_cons (x : ascii) (a b : string) :
  String x a +:+ b = String x (a +:+ b).
Proof. reflexivity. Qed.

Lemma append_nil_l (a : string) : "" +:+ a = a.
Proof. reflexivity. Qed.

Lemma append_assoc (a b c : string) : (a +:+ b) +:+ c = a +:+ (b +:+ c).
Proof.
  induction a as [|x a IH]; [reflexivity|]. rewrite !append_cons. by rewrite IH.
Qed.

Lemma append_nil_r (a : string) : a +:+ "" = a.
Proof.
  induction a as [|x a IH]; [reflexivity|]. rewrite append_cons. by rewrite IH.
Qed.

Lemma stamp_format (seg : segment) (key t : string) :
  stamp seg key t ↔ format_timestamp (seg_get seg key (Py.VFloat 0)) = Returns t.
Proof.
  unfold stamp, seg_get. destruct (seg !! key) as [v|]; simpl; [reflexivity|].
  let r := eval vm_compute in (format_timestamp (Py.VFloat 0)) in
  change (format_timestamp (Py.VFloat 0)) with r.
  split; [by intros ->|by intros [= <-]].
Qed.

Lemma cue_text_strip (seg : segment) (text : string) :
  cue_text seg text ↔
  value_strip (seg_get seg "text" (Py.VStr "")) = Returns text.
Proof.
  unfold cue_text, seg_get. destruct (seg !! "text"%string) as [[]|]; simpl;
    try (split; [by intros []|discriminate]).
  - split; [by intros ->|by intros [= <-]].
  - split; [by intros ->|by intros [= <-]].
Qed.

(** One turn of the loop appends the cue block, and fails exactly when a
    timestamp or the text cannot be produced. *)
Lemma write_cue_returns (cue : Z * segment) (f f' : string) :
  write_cue cue f = (f', Returns tt) ↔ ∃ block, cue_of cue block ∧ f' = f +:+ block.
Proof.
  destruct cue as [i seg]. unfold cue_of, write_cue. simpl.
  setoid_rewrite stamp_format. setoid_rewrite cue_text_strip.
  unfold mbind, M_bind, lift, f_write.
  destruct (value_strip _) as [text|e]; simpl.
  2:{ split; [discriminate|]. intros (? & (? & ? & ? & _ & _ & [=] & _) & _). }
  destruct (format_timestamp (seg_get seg "start" _)) as [t1|e]; simpl.
  2:{ split; [discriminate|]. intros (? & (? & ? & ? & [=] & _) & _). }
  destruct (format_timestamp (seg_get seg "end" _)) as [t2|e]; simpl.
  2:{ split; [discriminate|]. intros (? & (? & ? & ? & _ & [=] & _) & _). }
  split.
  - intros [= <-]. exists (cue_block i t1 t2 text). split.
    + by exists t1, t2, text.
    + unfold cue_block. by rewrite !append_assoc.
  - intros (block & (? & ? & ? & [= <-] & [= <-] & [= <-] & ->) & ->).
    unfold cue_block. by rewrite !append_assoc.
Qed.

Lemma for_each_write_cue (cues : list (Z * segment)) (f f' : string) :
  for_each write_cue cues f = (f', Returns tt) ↔
  ∃ blocks, Forall2 cue_of cues blocks ∧ f' = f +:+ Py.join "" blocks.
Proof.
  revert f. induction cues as [|cue cues IH]; intros f; simpl.
  - split.
    + intros [= <-]. exists []. split; [constructor|]. by rewrite append_nil_r.
    + intros (blocks & Hb & ->). inversion Hb; subst. simpl.
      by rewrite append_nil_r.
  - unfold mbind, M_bind.
    destruct (write_cue cue f) as [f1 [[]|e]] eqn:Hcue.
    + apply write_cue_returns in Hcue as (block & Hblock & ->).
      rewrite IH. split.
      * intros (blocks & Hb & ->). exists (block :: blocks).
        split; [by constructor|].
        destruct blocks; simpl; by rewrite ?append_nil_r, ?append_assoc.
      * intros (blocks & Hb & ->). inversion Hb as [|? block' ? blocks' Hc Hrest];
          subst. exists blocks'. split; [done|].
        assert (block' = block) as ->.
        { destruct Hblock as (a1 & a2 & a3 & H1 & H2 & H3 & ->).
          destruct Hc as (b1 & b2 & b3 & G1 & G2 & G3 & ->).
          apply stamp_format in H1, H2, G1, G2.
          apply cue_text_strip in H3, G3. congruence. }
        destruct blocks'; simpl; by rewrite ?append_nil_r, ?append_assoc.
    + split; [discriminate|].
      intros (blocks & Hb & _). inversion Hb as [|? block ? ? Hc _]; subst.
      assert (write_cue cue f = (f +:+ block, Returns tt)) as Hok.
      { apply write_cue_returns. by exists block. }
      congruence.
Qed.

(** The loop of [write_srt] returns normally exactly when every segment
    has a cue block, and the file then holds the blocks one after the
    other. *)
Lemma write_cues_returns (segments : list segment) (f : string) :
  write_cues segments = (f, Returns tt) ↔
  ∃ blocks, Forall2 cue_of (enumerate 1 segments) blocks ∧ f = Py.join "" blocks.
Proof. unfold write_cues. by rewrite for_each_write_cue. Qed.

(** [enumerate(segments, start=1)] numbers the segments from 1, in order. *)
Lemma enumerate_lookup {A} (l : list A) (start : Z) (i : nat) :
  enumerate start l !! i = (λ x, (start + Z.of_nat i, x)) <$> l !! i.
Proof.
  revert start i. induction l as [|x l IH]; intros start [|i]; simpl; try done.
  - by rewrite Z.add_0_r.
  - rewrite IH. destruct (l !! i); simpl; [|done]. do 2 f_equal. lia.
Qed.

(** [write_srt] on a path that can be opened: the file is written with
    what the loop produced, and the call ends as the loop did. *)
Lemma write_srt_written {W} (E : environment W) (segments : list segment)
    (out_path : string) (s : state W) (w : W) :
  env_open E out_path (world s) = (w, true) →
  write_srt E segments out_path s =
    ({| world := env_written E out_path (Text (write_cues segments).1) w;
        trace := EWritten out_path (Text (write_cues segments).1)
                 :: EOpen out_path true :: trace s |},
     (write_cues segments).2).
Proof.
  intros Hopen. unfold write_srt, open_w, demand, ask, close, lift.
  unfold mbind, M_bind, mret, M_ret. rewrite Hopen. simpl.
  by destruct (write_cues segments) as [f [[]|e]].
Qed.

Lemma blocks_of_enumerate (segments : list segment) (blocks : list string) :
  blocks_of segments blocks ↔ Forall2 cue_of (enumerate 1 segments) blocks.
Proof.
  assert (Hlen : ∀ (l : list segment) k, length (enumerate k l) = length l).
  { induction l as [|x l IH]; intros k; simpl; [done|]. by rewrite IH. }
  rewrite Forall2_same_length_lookup, Hlen. unfold blocks_of.
  split; intros [Hl H]; (split; [done|]).
  - intros i [k seg] block Hi Hb. rewrite enumerate_lookup in Hi.
    destruct (segments !! i) as [seg'|] eqn:Hseg; simpl in Hi; [|done].
    injection Hi as <- <-. destruct (H i seg' Hseg) as (block' & Hb' & Hc).
    rewrite Z.add_comm. congruence.
  - intros i seg Hseg.
    destruct (blocks !! i) as [block|] eqn:Hb.
    + exists block. split; [done|]. rewrite Z.add_comm.
      apply (H i _ block); [|done]. rewrite enumerate_lookup, Hseg. done.
    + apply lookup_ge_None in Hb. apply lookup_lt_Some in Hseg. lia.
Qed.

(** When every segment has its cue block, the file holds these blocks
    joined, and the call returns. *)
Lemma write_srt_blocks {W} (E : environment W) (segments : list segment)
    (blocks : list string) (out_path : string) (s : state W) (w : W) :
  env_open E out_path (world s) = (w, true) →
  blocks_of segments blocks →
  write_srt E segments out_path s
    = (wrote E out_path (Py.join "" blocks) w s, Returns tt).
Proof.
  intros Hopen Hb. rewrite (write_srt_written E _ _ _ _ Hopen).
  apply blocks_of_enumerate in Hb.
  assert (write_cues segments = (Py.join "" blocks, Returns tt)) as ->; [|done].
  apply write_cues_returns. by exists blocks.
Qed.

(** C8: [write_srt] writes one cue block per segment, numbered from 1 in
    the order of the segments, each with the segment's text trimmed and
    with no text at all when the segment has none: whenever every segment
    has a cue block the file holds exactly these blocks, and a call that
    returns has written nothing else.  The segments (0.0, 1.5, "Hello")
    and (1.5, 3.0, "World  ") give two blocks, numbered 1 and 2, the second
    with the text "World". *)
Theorem write_srt_one_block_per_segment {W} (E : environment W)
    (out_path : string) (s : state W) (w : W) :
  env_open E out_path (world s) = (w, true) →
  (∀ segments blocks,
     blocks_of segments blocks →
     write_srt E segments out_path s
       = (wrote E out_path (Py.join "" blocks) w s, Returns tt)) ∧
  (∀ segments s',
     write_srt E segments out_path s = (s', Returns tt) →
     ∃ blocks, blocks_of segments blocks ∧
               s' = wrote E out_path (Py.join "" blocks) w s) ∧
  write_srt E hello_world out_path s
    = (wrote E out_path hello_world_srt w s, Returns tt) ∧
  blocks_of hello_world
    [cue_block 1 "00:00:00,000" "00:00:01,500" "Hello";
     cue_block 2 "00:00:01,500" "00:00:03,000" "World"].
Proof.
  intros Hopen.
  assert (Hgen : ∀ segments blocks, blocks_of segments blocks →
            write_srt E segments out_path s
              = (wrote E out_path (Py.join "" blocks) w s, Returns tt)).
  { intros segments blocks. by apply write_srt_blocks. }
  assert (Hex : blocks_of hello_world
            [cue_block 1 "00:00:00,000" "00:00:01,500" "Hello";
             cue_block 2 "00:00:01,500" "00:00:03,000" "World"]).
  { apply blocks_of_enumerate. repeat constructor.
    - exists "00:00:00,000"%string, "00:00:01,500"%string, "Hello"%string.
      repeat split; vm_compute; reflexivity.
    - exists "00:00:01,500"%string, "00:00:03,000"%string, "World"%string.
      repeat split; vm_compute; reflexivity. }
  repeat split; [exact Hgen| |exact (Hgen _ _ Hex)|apply Hex..].
  intros segments s'. rewrite (write_srt_written E _ _ _ _ Hopen).
  destruct (write_cues segments) as [f r] eqn:Hcues. simpl. intros [= <- ->].
  apply write_cues_returns in Hcues as (blocks & Hb & ->).
  exists blocks. by rewrite blocks_of_enumerate.
Qed.

Lemma write_srt_one_block_per_segment_witness :
  write_srt (scripted healthy) hello_world "output/001/subtitles.srt"
      {| world := tt; trace := [] |}
  = ({| world := tt;
        trace := [EWritten "output/001/subtitles.srt" (Text hello_world_srt);
                  EOpen "output/001/subtitles.srt" true] |},
     Returns tt).
Proof.
  exact (proj1 (proj2 (proj2
    (write_srt_one_block_per_segment (scripted healthy)
       "output/001/subtitles.srt" {| world := tt; trace := [] |} tt eq_refl)))).
Defined.

(** C10: a segment without a ["start"] or an ["end"] does not make
    [write_srt] fail.  Whenever the fields that are present can be
    printed, the call returns and the file holds one cue block for each
    segment, in which a missing offset reads 00:00:00,000, the timestamp
    of 0.0, while an offset that is present has its own timestamp and the
    text is the text of the segment, trimmed. *)
Theorem write_srt_missing_offsets {W} (E : environment W)
    (segments : list segment) (out_path : string) (s : state W) (w : W) :
  env_open E out_path (world s) = (w, true) →
  Forall renders segments →
  ∃ blocks,
    write_srt E segments out_path s
      = (wrote E out_path (Py.join "" blocks) w s, Returns tt) ∧
    length blocks = length segments ∧
    ∀ (i : nat) seg, segments !! i = Some seg →
      ∃ t1 t2 text,
        blocks !! i = Some (cue_block (Z.of_nat i + 1) t1 t2 text) ∧
        (seg !! "start"%string = None →
         t1 = "00:00:00,000"%string ∧ format_timestamp (Py.VFloat 0) = Returns t1) ∧
        (∀ v, seg !! "start"%string = Some v → format_timestamp v = Returns t1) ∧
        (seg !! "end"%string = None →
         t2 = "00:00:00,000"%string ∧ format_timestamp (Py.VFloat 0) = Returns t2) ∧
        (∀ v, seg !! "end"%string = Some v → format_timestamp v = Returns t2) ∧
        (seg !! "text"%string = None → text = EmptyString) ∧
        (∀ v, seg !! "text"%string = Some v → ∃ t, v = Py.VStr t ∧ text = Py.strip t).
Proof.
  intros Hopen Hall.
  assert (∃ blocks, blocks_of segments blocks) as [blocks Hb].
  { setoid_rewrite blocks_of_enumerate. generalize 1.
    induction Hall as [|seg segments Hseg _ IH]; intros k; simpl.
    - exists []. constructor.
    - destruct (IH (k + 1)) as [blocks Hb].
      destruct Hseg as ((t1 & H1) & (t2 & H2) & (text & H3)).
      exists (cue_block k t1 t2 text :: blocks). constructor; [|done].
      by exists t1, t2, text. }
  exists blocks. split; [|split; [apply Hb|]].
  - by apply write_srt_blocks.
  - intros i seg Hi. destruct Hb as [_ Hb].
    destruct (Hb i seg Hi) as (block & Hblock & t1 & t2 & text & H1 & H2 & H3 & ->).
    exists t1, t2, text. split; [done|].
    unfold stamp in H1, H2. unfold cue_text in H3. simpl in *.
    assert (Hzero : format_timestamp (Py.VFloat 0) = Returns "00:00:00,000"%string)
      by (vm_compute; reflexivity).
    split; [intros Hnone; rewrite Hnone in H1; by subst t1|].
    split; [intros v Hv; by rewrite Hv in H1|].
    split; [intros Hnone; rewrite Hnone in H2; by subst t2|].
    split; [intros v Hv; by rewrite Hv in H2|].
    split; [intros Hnone; by rewrite Hnone in H3|].
    intros v Hv. rewrite Hv in H3. destruct v as [| | |t]; try done. by exists t.
Qed.

Lemma write_srt_missing_offsets_witness :
  Forall renders [no_start; text_only; ∅] ∧
  ∃ blocks,
    write_srt (scripted healthy) [no_start; text_only; ∅] "out.srt"
        {| world := tt; trace := [] |}
    = (wrote (scripted healthy) "out.srt" (Py.join "" blocks) tt
          {| world := tt; trace := [] |}, Returns tt) ∧
    length blocks = 3%nat ∧
    ∀ (i : nat) seg, [no_start; text_only; ∅] !! i = Some seg →
      ∃ t1 t2 text,
        blocks !! i = Some (cue_block (Z.of_nat i + 1) t1 t2 text) ∧
        (seg !! "start"%string = None →
         t1 = "00:00:00,000"%string ∧ format_timestamp (Py.VFloat 0) = Returns t1) ∧
        (∀ v, seg !! "start"%string = Some v → format_timestamp v = Returns t1) ∧
        (seg !! "end"%string = None →
         t2 = "00:00:00,000"%string ∧ format_timestamp (Py.VFloat 0) = Returns t2) ∧
        (∀ v, seg !! "end"%string = Some v → format_timestamp v = Returns t2) ∧
        (seg !! "text"%string = None → text = EmptyString) ∧
        (∀ v, seg !! "text"%string = Some v → ∃ t, v = Py.VStr t ∧ text = Py.strip t).
Proof.
  assert (Hall : Forall renders [no_start; text_only; ∅]).
  { repeat constructor; by eexists; vm_compute. }
  split; [exact Hall|].
  exact (write_srt_missing_offsets (scripted healthy) [no_start; text_only; ∅]
           "out.srt" {| world := tt; trace := [] |} tt eq_refl Hall).
Defined.

(** ** Output slots *)

Lemma isdecimal_cases (c : ascii) :
  Py.isdecimal c = true →
  List.In c ["0"; "1"; "2"; "3"; "4"; "5"; "6"; "7"; "8"; "9"]%char.
Proof.
  destruct c as [[] [] [] [] [] [] [] []]; intros H; vm_compute in H;
    try discriminate H; simpl; tauto.
Qed.

Lemma eqb_LF_cases (rest : string) :
  (String.eqb rest EmptyString || String.eqb rest Py.LF) = true →
  rest = EmptyString ∨ rest = Py.LF.
Proof.
  intros H. apply orb_true_iff in H as [H|H]; apply String.eqb_eq in H; auto.
Qed.

(** On a name the pattern accepts, [int] returns the number its three
    digits spell. *)
Lemma int_of_str_d3 (name : string) :
  Py.re_match_d3 name = true →
  Py.int_of_str name = Returns (slot_number name) ∧ 0 <= slot_number name.
Proof.
  destruct name as [|a [|b [|c rest]]]; try discriminate. simpl.
  intros H. apply andb_true_iff in H as [H Hrest].
  apply andb_true_iff in H as [H Hc]. apply andb_true_iff in H as [Ha Hb].
  apply isdecimal_cases in Ha, Hb, Hc. apply eqb_LF_cases in Hrest.
  simpl in Ha, Hb, Hc.
  destruct Hrest as [-> | ->];
    repeat match goal with
           | H : _ ∨ _ |- _ => destruct H as [<- | H]
           | H : False |- _ => destruct H
           end;
    (split; [vm_compute; reflexivity | vm_compute; discriminate]).
Qed.

Lemma comprehension_map {A B} (f : A → result B) (g : A → B) (l : list A) :
  (∀ x, List.In x l → f x = Returns (g x)) →
  comprehension f l = Returns (g <$> l).
Proof.
  induction l as [|x l IH]; intros H; simpl; [done|].
  rewrite (H x) by (by left). simpl. rewrite IH by (intros; apply H; by right).
  done.
Qed.

Lemma insert_desc_head (x : Z) (l : list Z) :
  ∃ top rest, insert_desc x l = top :: rest ∧
              top = Z.max x (match l with [] => x | y :: _ => y end).
Proof.
  destruct l as [|y l]; simpl.
  - exists x, []. split; [done|lia].
  - destruct (y <=? x) eqn:Hyx.
    + exists x, (y :: l). split; [done|]. apply Z.leb_le in Hyx. lia.
    + exists y, (insert_desc x l). split; [done|]. apply Z.leb_gt in Hyx. lia.
Qed.

(** The head of [sorted(l, reverse=True)] is the greatest element. *)
Lemma sorted_desc_head (l : list Z) :
  Forall (λ x, 0 <= x) l →
  match sorted_desc l with
  | [] => 1
  | top :: _ => top + 1
  end = foldr Z.max 0 l + 1.
Proof.
  induction 1 as [|x l Hx Hl IH]; simpl; [done|].
  destruct (insert_desc_head x (sorted_desc l)) as (top & rest & -> & ->).
  unfold sorted_desc in *. destruct (foldr insert_desc [] l) as [|y l'].
  - assert (foldr Z.max 0 l = 0) by lia. lia.
  - lia.
Qed.

(** What [next_output_folder] computes from a listing: one more than the
    greatest number among the names the pattern accepts, on three digits. *)
Lemma next_folder_name_slot (names : list string) :
  next_folder_name names
    = Returns (Py.format_0d 3 (next_slot Py.re_match_d3 names)).
Proof.
  unfold next_folder_name, next_slot.
  rewrite (comprehension_map _ slot_number).
  2:{ intros x Hx. apply List.filter_In in Hx as [_ Hx].
      by apply int_of_str_d3. }
  simpl. do 2 f_equal. apply sorted_desc_head.
  apply Forall_forall. intros n Hn. apply list_elem_of_fmap in Hn as (x & -> & Hx).
  apply list_elem_of_In, List.filter_In in Hx as [_ Hx]. by apply int_of_str_d3.
Qed.

(** As long as no name is three digits followed by a line feed, the slot
    is the one the specification describes. *)
Lemma next_folder_name_claimed (names : list string) :
  (∀ name, List.In name names → Py.re_match_d3 name = three_digits name) →
  next_folder_name names = Returns (Py.format_0d 3 (claimed_slot names)).
Proof.
  intros H. rewrite next_folder_name_slot. unfold claimed_slot, next_slot.
  assert (List.filter Py.re_match_d3 names = List.filter three_digits names)
    as ->; [|done].
  induction names as [|x names IH]; simpl; [done|].
  rewrite (H x) by (by left). rewrite IH by (intros; apply H; by right). done.
Qed.

(** The examples of the specification: an empty base directory gives 001;
    001, 002 and 005 give 006; [abc] and [0001] are ignored. *)
Lemma next_folder_name_examples :
  next_folder_name [] = Returns "001"%string ∧
  next_folder_name ["001"; "002"; "005"]%string = Returns "006"%string ∧
  next_folder_name ["abc"; "002"; "0001"]%string = Returns "003"%string.
Proof. repeat split; vm_compute; reflexivity. Qed.

(** [next_output_folder] in an environment that lets it create its
    directories and list the base directory. *)
Lemma next_output_folder_run {W} (E : environment W) (base : string)
    (s : state W) (w1 w2 w3 : W) (entries : list dirent) :
  let name := Py.format_0d 3 (next_slot Py.re_match_d3 (d_name <$> entries)) in
  let out_path := Py.path_join base name in
  env_makedirs E base (world s) = (w1, true) →
  env_listdir E base w1 = (w2, Some entries) →
  env_makedirs E out_path w2 = (w3, true) →
  next_output_folder E base s
    = ({| world := w3;
          trace := EMakeDirs out_path true :: EListDir base (Some entries)
                   :: EMakeDirs base true :: trace s |},
       Returns out_path).
Proof.
  intros name out_path H1 H2 H3.
  unfold next_output_folder, makedirs, listdir, demand, expect, ask, lift.
  unfold mbind, M_bind, mret, M_ret. rewrite H1. simpl. rewrite H2. simpl.
  rewrite next_folder_name_slot. fold name. fold out_path. rewrite H3. done.
Qed.

(** C6: the pattern [^\d{3}$] also accepts three digits followed by a
    line feed, so an entry of that name is counted although it is not a
    three-digit name: with the single entry ["005\n"] the next folder is
    006, where the rule of the specification gives 001. *)
Theorem next_output_folder_counts_trailing_newline :
  let names := ["005" +:+ Py.LF] in
  three_digits ("005" +:+ Py.LF) = false ∧
  Py.format_0d 3 (claimed_slot names) = "001"%string ∧
  next_folder_name names = Returns "006"%string ∧
  (run (next_output_folder (scripted (with_entries [dir ("005" +:+ Py.LF)]))
          "output") tt).2 = Returns "output/006"%string.
Proof. repeat split; vm_compute; reflexivity. Qed.

(** C9, as stated, fails: a plain file named [007] in an otherwise empty
    base directory moves the next slot from 001 to 008. *)
Lemma plain_file_changes_slot :
  (run (next_output_folder (scripted (with_entries [])) "output") tt).2
    = Returns "output/001"%string ∧
  (run (next_output_folder (scripted (with_entries [file "007"])) "output") tt).2
    = Returns "output/008"%string ∧
  ¬ (∀ entries,
       next_folder_name (d_name <$> entries)
       = next_folder_name (d_name <$> List.filter d_is_dir entries)).
Proof.
  split; [vm_compute; reflexivity|]. split; [vm_compute; reflexivity|].
  intros H. specialize (H [file "007"]). vm_compute in H. discriminate H.
Qed.

Lemma foldr_max_ge (l : list Z) (x : Z) : x ∈ l → x <= foldr Z.max 0 l.
Proof.
  induction l as [|y l IH]; intros Hx; [by apply not_elem_of_nil in Hx|].
  apply elem_of_cons in Hx as [-> | Hx]; simpl; [lia|].
  specialize (IH Hx). lia.
Qed.

(** C9, amended: the allocator looks at names only.  Every entry of the
    base directory whose name the pattern accepts is counted, a plain file
    as much as a directory: the new folder is numbered one more than the
    greatest such name, hence above each of them. *)
Theorem next_output_folder_counts_every_entry {W} (E : environment W)
    (base : string) (s : state W) (w1 w2 w3 : W) (entries : list dirent) :
  let slot := next_slot Py.re_match_d3 (d_name <$> entries) in
  let out_path := Py.path_join base (Py.format_0d 3 slot) in
  env_makedirs E base (world s) = (w1, true) →
  env_listdir E base w1 = (w2, Some entries) →
  env_makedirs E out_path w2 = (w3, true) →
  (next_output_folder E base s).2 = Returns out_path ∧
  ∀ e, e ∈ entries → Py.re_match_d3 (d_name e) = true →
       slot_number (d_name e) < slot.
Proof.
  intros slot out_path H1 H2 H3. split.
  - by rewrite (next_output_folder_run E base s w1 w2 w3 entries H1 H2 H3).
  - intros e He Hmatch. unfold slot, next_slot.
    apply Z.lt_succ_r, foldr_max_ge, list_elem_of_fmap.
    exists (d_name e). split; [done|].
    apply list_elem_of_In, List.filter_In. split; [|done].
    apply list_elem_of_In, list_elem_of_fmap. by exists e.
Qed.

Lemma next_output_folder_counts_every_entry_witness :
  (run (next_output_folder (scripted (with_entries [dir "002"; file "007"]))
          "output") tt).2 = Returns "output/008"%string ∧
  slot_number "007" < 8.
Proof.
  destruct (next_output_folder_counts_every_entry
              (scripted (with_entries [dir "002"; file "007"])) "output"
              {| world := tt; trace := [] |} tt tt tt [dir "002"; file "007"]
              eq_refl eq_refl eq_refl) as [Hrun Hcount].
  split.
  - unfold run.
    destruct (next_output_folder _ _ _) as [s' r]. simpl in *. rewrite Hrun.
    vm_compute. reflexivity.
  - apply (Hcount (file "007")); [|vm_compute; reflexivity].
    apply elem_of_cons. right. apply elem_of_cons. by left.
Defined.

(** ** Strings and paths *)

Lemma prefix_spec (needle hay : string) :
  String.prefix needle hay = true ↔ ∃ post, hay = needle +:+ post.
Proof.
  revert hay. induction needle as [|a needle IH]; intros hay.
  - destruct hay; simpl; split; eauto.
  - destruct hay as [|b hay]; simpl.
    + split; [discriminate|]. by intros [post [=]].
    + destruct (ascii_dec a b) as [<- | Hab].
      * rewrite IH. split; intros [post H]; exists post.
        -- by rewrite append_cons, <- H.
        -- rewrite append_cons in H. by injection H.
      * split; [discriminate|]. intros [post H]. rewrite append_cons in H.
        injection H as H _. congruence.
Qed.

(** [needle in hay] holds exactly when [needle] occurs somewhere in
    [hay]. *)
Lemma contains_spec (needle hay : string) :
  Py.contains needle hay = true ↔ ∃ pre post, hay = pre +:+ needle +:+ post.
Proof.
  induction hay as [|c hay IH].
  - change (Py.contains needle "") with (String.prefix needle "" || false).
    rewrite orb_false_r, prefix_spec. split.
    + intros [post H]. by exists EmptyString, post.
    + intros (pre & post & H). destruct pre; [by exists post|discriminate].
  - change (Py.contains needle (String c hay))
      with (String.prefix needle (String c hay) || Py.contains needle hay).
    rewrite orb_true_iff, prefix_spec, IH. split.
    + intros [[post H] | (pre & post & H)].
      * by exists EmptyString, post.
      * exists (String c pre), post. by rewrite append_cons, <- H.
    + intros (pre & post & H). destruct pre as [|c' pre].
      * left. by exists post.
      * right. rewrite append_cons in H. injection H as _ H. by exists pre, post.
Qed.

Lemma rev_app_append (s1 s2 : string) :
  String.rev_app s1 s2 = String.rev s1 +:+ s2.
Proof.
  unfold String.rev. revert s2. induction s1 as [|c s1 IH]; intros s2; simpl.
  - done.
  - rewrite IH, (IH (String c "")), append_assoc. done.
Qed.

Lemma rev_app_rev_app (s1 s2 s3 : string) :
  String.rev_app (String.rev_app s1 s2) s3 = String.rev_app s2 (s1 +:+ s3).
Proof.
  revert s2 s3. induction s1 as [|c s1 IH]; intros s2 s3; simpl; [done|].
  rewrite IH. simpl. by rewrite append_cons.
Qed.

Lemma rev_involutive (s : string) : String.rev (String.rev s) = s.
Proof. unfold String.rev. rewrite rev_app_rev_app. simpl. apply append_nil_r. Qed.

Lemma ends_with_slash_spec (a : string) :
  Py.ends_with_slash a = true → ∃ x, a = x +:+ "/".
Proof.
  unfold Py.ends_with_slash. destruct (String.rev a) as [|c r] eqn:Hrev; [done|].
  destruct (Ascii.eqb_spec c "/") as [-> | Hc].
  - intros _. exists (String.rev r). rewrite <- (rev_involutive a), Hrev.
    unfold String.rev at 1. simpl. apply rev_app_append.
  - by destruct c as [[] [] [] [] [] [] [] []].
Qed.

Lemma split_go_no_sep (cur b : string) :
  no_slash b = true → Py.split_go "/" cur b = [String.rev_app cur b].
Proof.
  revert cur. induction b as [|c b IH]; intros cur Hb; simpl; [done|].
  simpl in Hb. apply andb_true_iff in Hb as [Hc Hb].
  apply negb_true_iff in Hc. rewrite Hc. by rewrite IH.
Qed.

Lemma split_go_nonempty (cur s : string) : Py.split_go "/" cur s ≠ [].
Proof.
  revert cur. induction s as [|c s IH]; intros cur; simpl; [done|].
  destruct (Ascii.eqb c "/"); [done|apply IH].
Qed.

Lemma last_split_go (cur x b : string) (d : string) :
  no_slash b = true →
  List.last (Py.split_go "/" cur (x +:+ "/" +:+ b)) d = b.
Proof.
  intros Hb. revert cur. induction x as [|c x IH]; intros cur.
  - change ("" +:+ "/" +:+ b) with (String "/" b). simpl.
    rewrite split_go_no_sep by done. done.
  - rewrite append_cons. simpl. destruct (Ascii.eqb c "/").
    + specialize (IH EmptyString).
      destruct (Py.split_go "/" "" (x +:+ "/" +:+ b)) eqn:Hs; [|done].
      by apply split_go_nonempty in Hs.
    + apply IH.
Qed.

(** Joining a plain file name to a folder gives a path with that base
    name. *)
Lemma basename_path_join (a b : string) :
  no_slash b = true → b ≠ EmptyString → Py.basename (Py.path_join a b) = b.
Proof.
  intros Hb Hne. unfold Py.path_join, Py.basename, Py.split.
  assert (String.prefix "/" b = false) as ->.
  { destruct (String.prefix "/" b) eqn:Hpre; [|done].
    apply prefix_spec in Hpre as [post ->].
    change ("/" +:+ post) with (String "/" post) in Hb. done. }
  destruct (String.eqb_spec a EmptyString) as [-> | Ha]; simpl.
  - by rewrite split_go_no_sep.
  - destruct (Py.ends_with_slash a) eqn:Hend.
    + apply ends_with_slash_spec in Hend as [x ->].
      rewrite append_assoc. by apply last_split_go.
    + by apply last_split_go.
Qed.

(** A text without a slash is one piece, and [num/den] splits into its
    two sides. *)
Lemma no_slash_contains (t : string) :
  no_slash t = true → Py.contains "/" t = false.
Proof.
  induction t as [|c t IH]; [done|]. intros H. simpl in H.
  apply andb_true_iff in H as [Hc Ht]. apply negb_true_iff in Hc.
  change (Py.contains "/" (String c t))
    with (String.prefix "/" (String c t) || Py.contains "/" t).
  rewrite (IH Ht), orb_false_r.
  destruct (String.prefix "/" (String c t)) eqn:Hp; [|done].
  apply prefix_spec in Hp as [post Hp].
  change ("/" +:+ post) with (String "/" post) in Hp.
  injection Hp as -> _. discriminate Hc.
Qed.

Lemma split_go_ratio (cur num den : string) :
  no_slash num = true → no_slash den = true →
  Py.split_go "/" cur (num +:+ "/" +:+ den) = [String.rev_app cur num; den].
Proof.
  intros Hnum Hden. revert cur. induction num as [|c num IH]; intros cur.
  - change ("" +:+ "/" +:+ den) with (String "/" den). simpl.
    by rewrite split_go_no_sep.
  - simpl in Hnum. apply andb_true_iff in Hnum as [Hc Hnum].
    apply negb_true_iff in Hc. rewrite append_cons. simpl. rewrite Hc.
    by rewrite IH.
Qed.

Lemma split_ratio (num den : string) :
  no_slash num = true → no_slash den = true →
  Py.split "/" (num +:+ "/" +:+ den) = [num; den].
Proof. intros Hnum Hden. unfold Py.split. by rewrite split_go_ratio. Qed.

(** ** Frame rate *)

Lemma float_of_str_raises (s : string) (e : exn) :
  Py.float_of_str s = Raises e → e = ValueError.
Proof.
  unfold Py.float_of_str.
  destruct (Py.drop_underscores _ _) as [s'|]; [|by intros [= <-]].
  destruct (Py.strip_sign s') as [neg body].
  repeat match goal with
         | |- context [if ?b then _ else _] => destruct b; try discriminate
         end.
  destruct (Py.parse_decimal body) as [[[d x] nd]|]; [discriminate|].
  by intros [= <-].
Qed.

(** Whatever [ffprobe] printed, reading it raises nothing but ordinary
    exceptions. *)
Lemma parse_fps_raises (out : captured) (e : exn) :
  parse_fps out = Raises e → is_Exception e = true.
Proof.
  unfold parse_fps. destruct out as [text|]; simpl; [|by intros [= <-]].
  assert (Hf : ∀ s (k : float → result float) e,
             (∀ x e, k x = Raises e → is_Exception e = true) →
             Py.float_of_str s ≫= k = Raises e → is_Exception e = true).
  { clear e. intros s k e Hk. destruct (Py.float_of_str s) as [x|e'] eqn:Hs; simpl.
    - apply Hk.
    - intros [= <-]. by rewrite (float_of_str_raises _ _ Hs). }
  assert (Hend : ∀ r : result float,
             (∀ e, r = Raises e → is_Exception e = true) →
             r ≫= (λ fps, Returns (Py.round_ndigits fps 3)) = Raises e →
             is_Exception e = true).
  { intros [x|e'] Hr; simpl; [discriminate|]. intros [= <-]. by apply Hr. }
  apply Hend. intros e'.
  destruct (Py.contains "/" (Py.strip text)).
  - destruct (Py.split "/" (Py.strip text)) as [|num [|den [|]]];
      try by intros [= <-].
    apply Hf. intros n e1. apply Hf. intros d e2.
    unfold Py.float_truediv. destruct (PrimFloat.eqb d 0); [|discriminate].
    by intros [= <-].
  - intros H. by rewrite (float_of_str_raises _ _ H).
Qed.

(** [detect_fps] against any environment: it returns, and what it returns
    only depends on how [ffprobe] ended. *)
Lemma detect_fps_run {W} (E : environment W) (video_path : string)
    (s : state W) :
  ∃ s', detect_fps E video_path s
        = (s', Returns (fps_of (env_run E (ffprobe_cmd video_path) (world s)).2)).
Proof.
  unfold detect_fps, try_except, probe_fps, check_output, ask, lift, print, emit.
  unfold mbind, M_bind, mret, M_ret, raise.
  destruct (env_run E (ffprobe_cmd video_path) (world s)) as [w [status out|]];
    simpl; [|by eexists].
  destruct (Z.eqb_spec status 0) as [-> | Hstatus]; simpl.
  - destruct (parse_fps out) as [fps|e] eqn:Hparse; [by eexists|].
    rewrite (parse_fps_raises _ _ Hparse). by eexists.
  - destruct status; try done; by eexists.
Qed.

(** What [ffprobe] prints in rational form, [num/den], reads as the
    quotient of the two numbers, rounded to three places; what it prints
    in plain form reads as that number, rounded to three places. *)
Lemma parse_fps_ratio (text num den : string) (n d : float) :
  Py.strip text = num +:+ "/" +:+ den →
  no_slash num = true → no_slash den = true →
  Py.float_of_str num = Returns n → Py.float_of_str den = Returns d →
  PrimFloat.eqb d 0 = false →
  parse_fps (Utf8 text) = Returns (Py.round_ndigits (n / d) 3).
Proof.
  intros Hs Hnum Hden Hn Hd Hd0. unfold parse_fps, decode.
  unfold mbind at 1, result_bind at 1. rewrite Hs.
  assert (Py.contains "/" (num +:+ "/" +:+ den) = true) as ->.
  { apply contains_spec. by exists num, den. }
  rewrite split_ratio by done. rewrite Hn. simpl. rewrite Hd. simpl.
  unfold Py.float_truediv. by rewrite Hd0.
Qed.

Lemma parse_fps_plain (text : string) (x : float) :
  no_slash (Py.strip text) = true →
  Py.float_of_str (Py.strip text) = Returns x →
  parse_fps (Utf8 text) = Returns (Py.round_ndigits x 3).
Proof.
  intros Hs Hx. unfold parse_fps, decode.
  unfold mbind at 1, result_bind at 1.
  rewrite (no_slash_contains _ Hs). by rewrite Hx.
Qed.

(** C3: [detect_fps] never raises, whatever becomes of the probe: it
    always returns a float.  It returns the fallback 24.0 whenever its
    [try] block fails, be it that [ffprobe] cannot be started, exits with
    an error, or prints something that is no frame rate.  When [ffprobe]
    succeeds and its output can be read, it returns what was read: for
    [num/den] the quotient of the two numbers rounded to three places, for
    a plain number that number rounded to three places.  So ["30000/1001"]
    gives 29.97 and ["24000/1001"] gives 23.976. *)
Theorem detect_fps_never_raises {W} (E : environment W) (video_path : string)
    (s : state W) :
  ∃ s' fps,
    detect_fps E video_path s = (s', Returns fps) ∧
    (∀ s1 e, probe_fps E video_path s = (s1, Raises e) → fps = 24%float) ∧
    (∀ w, env_run E (ffprobe_cmd video_path) (world s) = (w, NotStarted) →
          fps = 24%float) ∧
    (∀ w status out,
       env_run E (ffprobe_cmd video_path) (world s) = (w, Exited status out) →
       status ≠ 0 → fps = 24%float) ∧
    (∀ w out e,
       env_run E (ffprobe_cmd video_path) (world s) = (w, Exited 0 out) →
       parse_fps out = Raises e → fps = 24%float) ∧
    (∀ w out x,
       env_run E (ffprobe_cmd video_path) (world s) = (w, Exited 0 out) →
       parse_fps out = Returns x → fps = x) ∧
    (∀ w text num den n d,
       env_run E (ffprobe_cmd video_path) (world s) = (w, Exited 0 (Utf8 text)) →
       Py.strip text = num +:+ "/" +:+ den →
       no_slash num = true → no_slash den = true →
       Py.float_of_str num = Returns n → Py.float_of_str den = Returns d →
       PrimFloat.eqb d 0 = false →
       fps = Py.round_ndigits (n / d) 3) ∧
    (∀ w text x,
       env_run E (ffprobe_cmd video_path) (world s) = (w, Exited 0 (Utf8 text)) →
       no_slash (Py.strip text) = true →
       Py.float_of_str (Py.strip text) = Returns x →
       fps = Py.round_ndigits x 3) ∧
    (∀ w, env_run E (ffprobe_cmd video_path) (world s)
            = (w, Exited 0 (Utf8 "30000/1001")) → fps = 29.97%float) ∧
    parse_fps (Utf8 ("30000/1001" +:+ Py.LF)) = Returns 29.97%float ∧
    parse_fps (Utf8 ("24000/1001" +:+ Py.LF)) = Returns 23.976%float ∧
    parse_fps (Utf8 "25") = Returns 25%float ∧
    parse_fps (Utf8 "59.94006") = Returns 59.94%float ∧
    parse_fps NotUtf8 = Raises UnicodeDecodeError ∧
    parse_fps (Utf8 "") = Raises ValueError ∧
    parse_fps (Utf8 "N/A") = Raises ValueError ∧
    parse_fps (Utf8 "0/0") = Raises ZeroDivisionError.
Proof.
  destruct (detect_fps_run E video_path s) as [s' Hrun].
  exists s', (fps_of (env_run E (ffprobe_cmd video_path) (world s)).2).
  split; [exact Hrun|].
  split.
  { intros s1 e. unfold probe_fps, check_output, ask, lift.
    unfold mbind, M_bind, mret, M_ret, raise.
    destruct (env_run E (ffprobe_cmd video_path) (world s))
      as [w [status out|]]; simpl; [|done].
    destruct (Z.eqb_spec status 0) as [-> | Hstatus]; simpl.
    - by intros [= _ ->].
    - by destruct status. }
  split; [by intros w ->|].
  split; [intros w status out -> Hstatus; simpl; by destruct status|].
  split; [intros w out e -> Hparse; simpl; by rewrite Hparse|].
  split; [intros w out x -> Hparse; simpl; by rewrite Hparse|].
  split.
  { intros w text num den n d -> Hs Hnum Hden Hn Hd Hd0. unfold fps_of, snd.
    by rewrite (parse_fps_ratio _ _ _ _ _ Hs Hnum Hden Hn Hd Hd0). }
  split.
  { intros w text x -> Hs Hx. unfold fps_of, snd.
    by rewrite (parse_fps_plain _ _ Hs Hx). }
  split; [intros w ->; vm_compute; reflexivity|].
  split; [vm_compute; reflexivity|].
  split; [vm_compute; reflexivity|].
  split; [vm_compute; reflexivity|].
  split; [vm_compute; reflexivity|].
  split; [vm_compute; reflexivity|].
  split; [vm_compute; reflexivity|].
  split; vm_compute; reflexivity.
Qed.

Lemma detect_fps_never_raises_witness :
  ∃ s',
    detect_fps (scripted (with_probe (Exited 1 (Utf8 "")))) "talk.mp4"
      {| world := tt; trace := [] |} = (s', Returns 24%float).
Proof.
  destruct (detect_fps_never_raises (scripted (with_probe (Exited 1 (Utf8 ""))))
              "talk.mp4" {| world := tt; trace := [] |})
    as (s' & fps & Hrun & _ & _ & Hexit & _).
  exists s'. rewrite Hrun. f_equal. f_equal.
  apply (Hexit tt 1 (Utf8 "")); [reflexivity|lia].
Defined.

(** ** Reasoning about runs *)

Section Quiet.
Context {W : Type} (E : environment W) (P : event → Prop).

Lemma quiet_ret {A} (a : A) : quiet P (mret a : M (state W) A).
Proof. intros s s' r [= <- <-]. by exists []. Qed.

Lemma quiet_raise {A} (e : exn) : quiet P (raise e : M (state W) A).
Proof. intros s s' r [= <- <-]. by exists []. Qed.

Lemma quiet_lift {A} (x : result A) : quiet P (lift x : M (state W) A).
Proof. intros s s' r [= <- <-]. by exists []. Qed.

Lemma quiet_bind {A B} (m : M (state W) A) (k : A → M (state W) B) :
  quiet P m → (∀ a, quiet P (k a)) → quiet P (m ≫= k).
Proof.
  intros Hm Hk s s' r. unfold mbind, M_bind.
  destruct (m s) as [s1 [a|e]] eqn:Hms.
  - intros Hka. destruct (Hm _ _ _ Hms) as (n1 & H1 & F1).
    destruct (Hk a _ _ _ Hka) as (n2 & H2 & F2).
    exists (n2 ++ n1). split; [by rewrite H2, H1, app_assoc|].
    by apply Forall_app.
  - intros [= <- <-]. by apply (Hm _ _ _ Hms).
Qed.

Lemma quiet_try_except {A} (body : M (state W) A) (class : exn → bool)
    (handler : exn → M (state W) A) :
  quiet P body → (∀ e, quiet P (handler e)) →
  quiet P (try_except body class handler).
Proof.
  intros Hb Hh s s' r. unfold try_except.
  destruct (body s) as [s1 [a|e]] eqn:Hbs.
  - intros [= <- <-]. by apply (Hb _ _ _ Hbs).
  - destruct (class e).
    + intros Hhe. destruct (Hb _ _ _ Hbs) as (n1 & H1 & F1).
      destruct (Hh e _ _ _ Hhe) as (n2 & H2 & F2).
      exists (n2 ++ n1). split; [by rewrite H2, H1, app_assoc|].
      by apply Forall_app.
    + intros [= <- <-]. by apply (Hb _ _ _ Hbs).
Qed.

Lemma quiet_ask {A} (h : W → W * A) (ev : A → event) :
  (∀ a, P (ev a)) → quiet P (ask h ev).
Proof.
  intros Hev s s' r. unfold ask. destruct (h (world s)) as [w a].
  intros [= <- <-]. exists [ev a]. split; [done|]. by constructor.
Qed.

Lemma quiet_emit (ev : event) : P ev → quiet P (emit (W:=W) ev).
Proof.
  intros Hev s s' r [= <- <-]. exists [ev]. split; [done|]. by constructor.
Qed.

Lemma quiet_close (path : string) (content : file_text) :
  P (EWritten path content) → quiet P (close E path content).
Proof.
  intros Hev s s' r [= <- <-]. exists [EWritten path content].
  split; [done|]. by constructor.
Qed.

End Quiet.

(** Takes a computation apart and leaves one goal for each event it can
    add to the trace. *)
Ltac quiet :=
  repeat first
    [ apply quiet_ret | apply quiet_raise | apply quiet_lift
    | apply quiet_bind; [|intros ?]
    | apply quiet_try_except; [|intros ?]
    | apply quiet_ask; intros ?
    | apply quiet_emit
    | apply quiet_close
    | match goal with
      | |- quiet _ (if ?b then _ else _) => destruct b
      | |- quiet _ (match ?x with _ => _ end) => destruct x
      | |- quiet _ (let '(_, _) := ?x in _) => destruct x
      end
    | progress unfold parse_args, check_ffmpeg, acquire_input, download_youtube,
        next_output_folder, write_srt, detect_fps, probe_fps,
        run_node_srt2subtitles, which, isfile, getcwd, abspath, makedirs,
        listdir, shutil_move, open_w, check_output, import, print,
        stderr_write, sys_exit, demand, expect ].

Section Runs.
Context {W : Type} (E : environment W).

Lemma framerate_basename (folder : string) :
  Py.basename (Py.path_join folder "framerate.txt") = "framerate.txt"%string.
Proof. by apply basename_path_join. Qed.

Lemma check_ffmpeg_quiet : quiet before_transcribing (check_ffmpeg E).
Proof. quiet; done. Qed.

Lemma acquire_input_quiet (input_path : string) :
  quiet before_transcribing (acquire_input E input_path).
Proof. quiet; done. Qed.

Lemma next_output_folder_quiet (base : string) :
  quiet before_transcribing (next_output_folder E base).
Proof. quiet; done. Qed.

Lemma detect_fps_quiet (video_path : string) :
  quiet before_transcribing (detect_fps E video_path).
Proof. quiet; done. Qed.

Lemma write_srt_quiet (segments : list segment) (out_path : string) :
  quiet not_transcribing (write_srt E segments out_path).
Proof. quiet; done. Qed.

Lemma run_node_quiet (srt_path : string) (fps : float) (out_folder : string) :
  quiet not_transcribing (run_node_srt2subtitles E srt_path fps out_folder).
Proof. quiet; done. Qed.

End Runs.

(** The first steps of [main], when they succeed. *)
Section Steps.
Context {W : Type} (E : environment W).

Lemma parse_args_bind {B} (k : string → M (state W) B) (s : state W) (w : W)
    (input : string) :
  env_parse_args E (world s) = (w, Parsed input) →
  (parse_args E ≫= k) s
  = k input {| world := w; trace := EParseArgs (Parsed input) :: trace s |}.
Proof.
  intros H. unfold parse_args, ask. unfold mbind, M_bind, mret, M_ret.
  by rewrite H.
Qed.



Lemma check_ffmpeg_bind {B} (k : unit → M (state W) B) (s : state W) (w1 w2 : W) :
  env_which E "ffmpeg" (world s) = (w1, true) →
  env_which E "ffprobe" w1 = (w2, true) →
  (check_ffmpeg E ≫= k) s
  = k tt {| world := w2;
            trace := EWhich "ffprobe" true :: EWhich "ffmpeg" true :: trace s |}.
Proof.
  intros H1 H2. unfold check_ffmpeg, which, ask.
  unfold mbind, M_bind, mret, M_ret. rewrite H1. simpl. by rewrite H2.
Qed.

Lemma bind_run {A B} (m : M (state W) A) (k : A → M (state W) B)
    (s s' : state W) (r : result B) :
  (m ≫= k) s = (s', r) →
  (∃ e, m s = (s', Raises e) ∧ r = Raises e) ∨
  (∃ s1 a, m s = (s1, Returns a) ∧ k a s1 = (s', r)).
Proof.
  unfold mbind, M_bind. destruct (m s) as [s1 [a|e]].
  - intros Hk. right. by exists s1, a.
  - intros [= <- <-]. left. by exists e.
Qed.

(** Step 1 on an input that is no remote source: the path is tested, and
    the run goes on with it or stops. *)
Lemma acquire_local_bind {B} (k : string → M (state W) B) (input : string)
    (s : state W) (w : W) (found : bool) :
  is_youtube_url input = false →
  env_isfile E input (world s) = (w, found) →
  (acquire_input E input ≫= k) s
  = if found
    then k input {| world := w; trace := EIsFile input true :: trace s |}
    else ({| world := w;
             trace := EStderr (ErrInputNotFound input)
                      :: EIsFile input false :: trace s |},
          Raises (SystemExit 1)).
Proof.
  intros Hurl Hfile.
  unfold acquire_input, isfile, ask, stderr_write, emit, sys_exit, raise.
  rewrite Hurl. unfold mbind, M_bind, mret, M_ret. rewrite Hfile.
  by destruct found.
Qed.

(** The first thing [download_youtube] does is to import [yt_dlp]. *)
Lemma download_youtube_import (url download_dir : string) (s s' : state W)
    (r : result string) :
  download_youtube E url download_dir s = (s', r) →
  ∃ found new, trace s' = new ++ EImport "yt_dlp" found :: trace s.
Proof.
  unfold download_youtube, try_except, import, makedirs, demand, expect, ask,
    print, stderr_write, emit, sys_exit, raise.
  unfold mbind, M_bind, mret, M_ret.
  destruct (env_import E "yt_dlp" (world s)) as [w1 [|]]; simpl.
  - destruct (env_makedirs E download_dir w1) as [w2 [|]]; simpl.
    + destruct (env_download E url _ w2) as [w3 [file|]]; simpl;
        intros [= <- <-]; by eexists true, [_; _; _].
    + intros [= <- <-]. by eexists true, [_].
  - intros [= <- <-]. by eexists false, [_].
Qed.

(** From a fact about every event of a computation to the trace it
    leaves. *)
Lemma quiet_from (P : event → Prop) {A} (m : M (state W) A) (s s' : state W)
    (r : result A) :
  quiet P m → Forall P (trace s) → m s = (s', r) → Forall P (trace s').
Proof.
  intros Hq Hs Hm. destruct (Hq _ _ _ Hm) as (new & -> & Hnew).
  by apply Forall_app.
Qed.

End Steps.

(** ** The run as a whole *)

Section Main.
Context {W : Type} (E : environment W).

Lemma step_before {A B} (m : M (state W) A) (k : A → M (state W) B)
    (s s' : state W) (r : result B) :
  quiet before_transcribing m →
  Forall before_transcribing (trace s) →
  (m ≫= k) s = (s', r) →
  Forall before_transcribing (trace s') ∨
  ∃ s1 a, Forall before_transcribing (trace s1) ∧ k a s1 = (s', r).
Proof.
  intros Hq Hinv. unfold mbind, M_bind.
  destruct (m s) as [s1 [a|e]] eqn:Hm;
    destruct (Hq _ _ _ Hm) as (new & Htr & Hnew).
  - intros Hk. right. exists s1, a. split; [|done].
    rewrite Htr. by apply Forall_app.
  - intros [= <- <-]. left. rewrite Htr. by apply Forall_app.
Qed.

(** How a run of [main] can end, seen from its trace: before the
    transcription; at a transcription that failed; at one that found no
    segment, with exit code 1; or after one that found some. *)
Lemma main_ends (s s' : state W) (r : result unit) :
  Forall before_transcribing (trace s) →
  main E s = (s', r) →
  Forall before_transcribing (trace s') ∨
  (∃ p rest, trace s' = ETranscribe p None :: rest ∧
             Forall before_transcribing rest) ∨
  (∃ p answer rest,
     default [] (answer !! "segments"%string) = [] ∧
     r = Raises (SystemExit 1) ∧
     trace s' = EStdout MsgNoSegments :: ETranscribe p (Some answer) :: rest ∧
     Forall before_transcribing rest) ∨
  (∃ p answer rest new,
     default [] (answer !! "segments"%string) ≠ [] ∧
     trace s' = new ++ ETranscribe p (Some answer) :: rest ∧
     Forall not_transcribing new ∧ Forall before_transcribing rest).
Proof.
  intros Hinv H. unfold main in H.
  repeat match type of H with
         | (expect _ _ _ ≫= _) _ = _ => fail 1
         | (_ ≫= _) _ = _ =>
             apply step_before in H;
               [destruct H as [H | (? & ? & Hinv' & H)];
                  [by left | clear Hinv; rename Hinv' into Hinv;
                             cbv beta zeta in H]
               | quiet; (done || by apply framerate_basename)
               | exact Hinv]
         end.
  unfold expect, ask in H. unfold mbind at 1, M_bind at 1 in H.
  unfold mbind at 1, M_bind at 1 in H.
  match type of H with
  | context [env_transcribe E ?p (world ?s0)] =>
      destruct (env_transcribe E p (world s0)) as [w' [answer|]] eqn:Hans
  end; simpl in H.
  2:{ injection H as <- <-. right. left. by eexists _, _. }
  destruct (default [] (answer !! "segments"%string)) as [|seg segments] eqn:Hsegs.
  - injection H as <- <-. right. right. left. by eexists _, answer, _.
  - right. right. right.
    match type of H with
    | ?tail ?s0 = _ => assert (Hq : quiet not_transcribing tail) by (quiet; done)
    end.
    destruct (Hq _ _ _ H) as (new & Htr & Hnew).
    eexists _, answer, _, new. rewrite Hsegs. by repeat split.
Qed.

(** C2: if the transcription yields no segment, the run ends with exit
    code 1, and [subtitles.srt] is neither opened nor written: the step
    that writes the subtitles is never reached. *)
Theorem main_no_segments_exits_1 (w : W) (path : string) (answer : transcript) :
  List.In (ETranscribe path (Some answer)) (run (main E) w).1 →
  default [] (answer !! "segments"%string) = [] →
  exit_code (run (main E) w).2 = 1 ∧
  Forall no_subtitles (run (main E) w).1.
Proof.
  unfold run.
  destruct (main E {| world := w; trace := [] |}) as [s' r] eqn:Hmain.
  simpl. intros Hin Hempty. rewrite <- List.in_rev in Hin.
  assert (Hweak : ∀ l, Forall before_transcribing l → Forall no_subtitles l).
  { intros l Hl. apply (Forall_impl _ _ _ Hl).
    intros [] Hev; simpl in *; try done; by rewrite Hev. }
  assert (Hnever : ∀ l, Forall before_transcribing l →
            ¬ List.In (ETranscribe path (Some answer)) l).
  { intros l Hl Hin'. rewrite Forall_forall in Hl.
    apply (Hl (ETranscribe path (Some answer))). by apply list_elem_of_In. }
  apply main_ends in Hmain; [|constructor].
  destruct Hmain as [Hb | [(p & rest & Htr & Hb) |
    [(p & answer' & rest & Hsegs & -> & Htr & Hb) |
     (p & answer' & rest & new & Hsegs & Htr & Hnew & Hb)]]].
  - by apply Hnever in Hin.
  - rewrite Htr in Hin. destruct Hin as [[=] | Hin]. by apply Hnever in Hin.
  - split; [done|]. rewrite Htr. apply Forall_rev.
    repeat constructor. by apply Hweak.
  - rewrite Htr in Hin. apply List.in_app_or in Hin as [Hin | [Hin | Hin]].
    + rewrite Forall_forall in Hnew.
      destruct (Hnew (ETranscribe path (Some answer))). by apply list_elem_of_In.
    + injection Hin as _ <-. done.
    + by apply Hnever in Hin.
Qed.

End Main.

Lemma main_no_segments_exits_1_witness :
  exit_code (run (main (scripted (with_transcript (Some ∅)))) tt).2 = 1 ∧
  Forall no_subtitles (run (main (scripted (with_transcript (Some ∅)))) tt).1.
Proof.
  apply (main_no_segments_exits_1 (scripted (with_transcript (Some ∅)))
           tt "output/001/talk.mp4" ∅).
  - vm_compute. tauto.
  - reflexivity.
Defined.

(** ** Acquiring the media *)

(** C4, as stated, fails: the test looks at the whole input, not at a
    hostname.  A URL of another host that mentions one of the domains in
    its query, and a local file whose name contains one, are both taken
    for remote sources. *)
Lemma remote_without_known_hostname :
  is_youtube_url "https://example.com/?u=youtu.be" = true ∧
  hostname_is_known "https://example.com/?u=youtu.be" = false ∧
  is_youtube_url "talk_youtube.com.mp4" = true ∧
  hostname_is_known "talk_youtube.com.mp4" = false ∧
  ¬ (∀ s, is_youtube_url s = true ↔ hostname_is_known s = true).
Proof.
  repeat split; try (vm_compute; reflexivity).
  intros H. specialize (H "talk_youtube.com.mp4"%string).
  destruct H as [H _]. specialize (H eq_refl). vm_compute in H. discriminate H.
Qed.

(** C4, amended: once the command line is read and both programs are
    found, the input is a remote source exactly when it contains
    [youtube.com] or [youtu.be] anywhere.  Such an input goes to the
    download: the next thing the run does is to import [yt_dlp].  Any other
    input is a local path: the next thing the run does is to test whether
    it is a file, and the run never imports [yt_dlp] nor downloads
    anything; if the path is not an existing file the run stops there with
    its message and exit code 1, having created or moved nothing, and if it
    is, step 1 leaves that very path as the media file. *)
Theorem main_acquires_by_substring {W} (E : environment W)
    (input_path : string) (w w0 w1 w2 : W) :
  env_parse_args E w = (w0, Parsed input_path) →
  env_which E "ffmpeg" w0 = (w1, true) →
  env_which E "ffprobe" w1 = (w2, true) →
  let outcome := run (main E) w in
  (is_youtube_url input_path = true ↔
   ∃ pre post, input_path = pre +:+ "youtube.com" +:+ post ∨
               input_path = pre +:+ "youtu.be" +:+ post) ∧
  (is_youtube_url input_path = true →
   ∃ found rest,
     outcome.1 = preflight_passed input_path ++ EImport "yt_dlp" found :: rest) ∧
  (is_youtube_url input_path = false →
   ∃ w3 found rest,
     env_isfile E input_path w2 = (w3, found) ∧
     outcome.1 = preflight_passed input_path ++ EIsFile input_path found :: rest ∧
     Forall no_download outcome.1 ∧
     (found = false →
      rest = [EStderr (ErrInputNotFound input_path)] ∧
      exit_code outcome.2 = 1 ∧ Forall harmless outcome.1) ∧
     (found = true →
      ∀ s, world s = w2 →
           acquire_input E input_path s
           = ({| world := w3; trace := EIsFile input_path true :: trace s |},
              Returns input_path))).
Proof.
  intros Hparse Hffmpeg Hffprobe outcome. split; [|split].
  - unfold is_youtube_url. rewrite orb_true_iff, !contains_spec. split.
    + intros [(pre & post & H) | (pre & post & H)]; exists pre, post; auto.
    + intros (pre & post & [H | H]); [left|right]; by exists pre, post.
  - intros Hurl. unfold outcome, run.
    destruct (main E {| world := w; trace := [] |}) as [s' r] eqn:H. simpl.
    unfold main in H. erewrite parse_args_bind in H by exact Hparse.
    erewrite check_ffmpeg_bind in H by (simpl; eassumption).
    cbv beta zeta in H. unfold acquire_input in H. rewrite Hurl in H.
    apply bind_run in H as [(e & H & _) | (s1 & file & H & Hrest)].
    + apply download_youtube_import in H as (found & new & ->).
      exists found, (List.rev new). simpl.
      by rewrite List.rev_app_distr.
    + apply download_youtube_import in H as (found & new & Hs1).
      match type of Hrest with
      | ?tail ?s0 = _ => assert (Hq : quiet any_event tail) by (quiet; done)
      end.
      destruct (Hq _ _ _ Hrest) as (new' & -> & _). rewrite Hs1.
      exists found, (List.rev new ++ List.rev new'). simpl.
      rewrite !List.rev_app_distr. simpl. by rewrite <- ?app_assoc.
  - intros Hurl.
    destruct (env_isfile E input_path w2) as [w3 found] eqn:Hfile.
    unfold outcome, run.
    destruct (main E {| world := w; trace := [] |}) as [s' r] eqn:H. simpl.
    unfold main in H. erewrite parse_args_bind in H by exact Hparse.
    erewrite check_ffmpeg_bind in H by (simpl; eassumption).
    cbv beta zeta in H.
    erewrite acquire_local_bind in H by (simpl; eassumption).
    destruct found.
    + match type of H with
      | ?tail ?s0 = _ => assert (Hq : quiet no_download tail) by (quiet; done)
      end.
      destruct (Hq _ _ _ H) as (new & -> & Hnew).
      exists w3, true, (List.rev new). split; [done|]. simpl.
      rewrite List.rev_app_distr. split; [done|]. split.
      * change (Forall no_download
                  (preflight_passed input_path
                   ++ EIsFile input_path true :: List.rev new)).
        apply Forall_app. split; [by repeat constructor|].
        constructor; [done|]. by apply Forall_rev.
      * split; [discriminate|]. intros _ s <-.
        unfold acquire_input, isfile, ask. rewrite Hurl.
        unfold mbind, M_bind, mret, M_ret. by rewrite Hfile.
    + injection H as <- <-. exists w3, false, [EStderr (ErrInputNotFound input_path)].
      split; [done|]. split; [done|]. split; [by repeat constructor|].
      split; [|discriminate]. intros _. split; [done|].
      split; [done|by repeat constructor].
Qed.

Lemma main_acquires_by_substring_witness :
  exit_code (run (main (scripted (with_args (Parsed "missing.mp4")))) tt).2 = 1 ∧
  (run (main (scripted (with_args (Parsed "missing.mp4")))) tt).1
  = preflight_passed "missing.mp4"
    ++ [EIsFile "missing.mp4" false; EStderr (ErrInputNotFound "missing.mp4")].
Proof.
  destruct (main_acquires_by_substring
              (scripted (with_args (Parsed "missing.mp4"))) "missing.mp4"
              tt tt tt tt eq_refl eq_refl eq_refl)
    as (_ & _ & Hlocal).
  destruct (Hlocal eq_refl) as ([] & found & rest & Hfile & Htrace & _ & Hmissing & _).
  assert (found = false) as -> by (vm_compute in Hfile; congruence).
  destruct (Hmissing eq_refl) as (-> & Hcode & _). by split.
Defined.

(** ** Conversion *)

(** When the converter exits with an error and its output is text,
    [run_node_srt2subtitles] prints that text and returns [None]. *)
Lemma run_node_reports_failure {W} (E : environment W) (srt_path : string)
    (fps : float) (out_folder : string) (s : state W) (n : Z) (w : W)
    (status : Z) (text : string) :
  let cmd := srt2subtitles_cmd srt_path n in
  Py.int_of_float fps = Returns n →
  env_run E cmd (world s) = (w, Exited status (Utf8 text)) →
  status ≠ 0 →
  run_node_srt2subtitles E srt_path fps out_folder s
    = ({| world := w;
          trace := EStdout (MsgToolError text)
                   :: ERun cmd (Exited status (Utf8 text))
                   :: EStdout (MsgRunning (Py.join " " cmd)) :: trace s |},
       Returns None).
Proof.
  intros cmd Hn Hrun Hstatus.
  unfold run_node_srt2subtitles, try_except, check_output, ask, print, emit,
    lift, raise.
  unfold mbind, M_bind, mret, M_ret. rewrite Hn. simpl.
  fold (srt2subtitles_cmd srt_path n). fold cmd. rewrite Hrun. simpl.
  destruct (Z.eqb_spec status 0) as [-> | _]; done.
Qed.

(** When the converter exits with an error and its output is not valid
    UTF-8, the handler itself fails: nothing is printed, nothing is
    returned, and [UnicodeDecodeError] leaves the function. *)
Lemma run_node_undecodable_output {W} (E : environment W) (srt_path : string)
    (fps : float) (out_folder : string) (s : state W) (n : Z) (w : W)
    (status : Z) :
  let cmd := srt2subtitles_cmd srt_path n in
  Py.int_of_float fps = Returns n →
  env_run E cmd (world s) = (w, Exited status NotUtf8) →
  status ≠ 0 →
  run_node_srt2subtitles E srt_path fps out_folder s
    = ({| world := w;
          trace := ERun cmd (Exited status NotUtf8)
                   :: EStdout (MsgRunning (Py.join " " cmd)) :: trace s |},
       Raises UnicodeDecodeError).
Proof.
  intros cmd Hn Hrun Hstatus.
  unfold run_node_srt2subtitles, try_except, check_output, ask, print, emit,
    lift, raise.
  unfold mbind, M_bind, mret, M_ret. rewrite Hn. simpl.
  fold (srt2subtitles_cmd srt_path n). fold cmd. rewrite Hrun. simpl.
  destruct (Z.eqb_spec status 0) as [-> | _]; done.
Qed.

(** C1: a converter that exits with status 1 after printing bytes that are
    not UTF-8 aborts the run: on a machine where everything else works,
    [subtitles.srt] is written, the converter is run, the handler of
    [CalledProcessError] raises [UnicodeDecodeError] while decoding the
    output, and the process exits with code 1, not 0. *)
Theorem conversion_failure_aborts_on_undecodable_output :
  run (main (scripted (with_convert (Exited 1 NotUtf8)))) tt
  = ([EParseArgs (Parsed "talk.mp4");
      EWhich "ffmpeg" true; EWhich "ffprobe" true;
      EIsFile "talk.mp4" true;
      EMakeDirs "output" true; EListDir "output" (Some []);
      EMakeDirs "output/001" true;
      EGetCwd "/home/user"; EGetCwd "/home/user";
      EMove "talk.mp4" "output/001/talk.mp4" true;
      EStdout (MsgMediaMoved "output/001/talk.mp4");
      ERun (ffprobe_cmd "output/001/talk.mp4")
           (Exited 0 (Utf8 ("30000/1001" +:+ Py.LF)));
      EStdout (MsgDetectedFps 29.97);
      EOpen "output/001/framerate.txt" true;
      EWritten "output/001/framerate.txt" (ReprOf 29.97);
      EImport "torch" true; EImport "whisper" true;
      ECuda false; ELoadModel "base" "cpu" true;
      EStdout MsgTranscribing;
      ETranscribe "output/001/talk.mp4"
                  (Some {[ "segments"%string := hello_world ]});
      EOpen "output/001/subtitles.srt" true;
      EWritten "output/001/subtitles.srt" (Text hello_world_srt);
      EStdout (MsgSrtSaved "output/001/subtitles.srt");
      EStdout (MsgRunning "srt2subtitles output/001/subtitles.srt 29");
      ERun ["srt2subtitles"; "output/001/subtitles.srt"; "29"]%string
           (Exited 1 NotUtf8)],
     Raises UnicodeDecodeError) ∧
  exit_code (Raises UnicodeDecodeError : result unit) = 1.
Proof. split; vm_compute; reflexivity. Qed.

Section Conversion.
Context {W : Type} (E : environment W).

Lemma step_quiet (P : event → Prop) {A B} (m : M (state W) A)
    (k : A → M (state W) B) (s s' : state W) (r : result B) :
  quiet P m →
  Forall P (trace s) →
  (m ≫= k) s = (s', r) →
  Forall P (trace s') ∨ ∃ s1 a, Forall P (trace s1) ∧ k a s1 = (s', r).
Proof.
  intros Hq Hinv. unfold mbind, M_bind.
  destruct (m s) as [s1 [a|e]] eqn:Hm;
    destruct (Hq _ _ _ Hm) as (new & Htr & Hnew).
  - intros Hk. right. exists s1, a. split; [|done].
    rewrite Htr. by apply Forall_app.
  - intros [= <- <-]. left. rewrite Htr. by apply Forall_app.
Qed.

(** The ways [run_node_srt2subtitles] can end, with the events it adds:
    it returns [None] exactly after a failure whose output it printed. *)
Lemma run_node_cases (srt_path : string) (fps : float) (out_folder : string)
    (s s' : state W) (r : result (option string)) :
  run_node_srt2subtitles E srt_path fps out_folder s = (s', r) →
  (trace s' = trace s ∧ ∃ e, r = Raises e) ∨
  ∃ n outcome,
    let cmd := srt2subtitles_cmd srt_path n in
    let started := ERun cmd outcome :: EStdout (MsgRunning (Py.join " " cmd))
                   :: trace s in
    match outcome with
    | Exited 0 _ =>
        trace s' = started ∧ r = Returns (Some "subtitles.fcpxml"%string)
    | Exited _ (Utf8 text) =>
        trace s' = EStdout (MsgToolError text) :: started ∧ r = Returns None
    | Exited _ NotUtf8 => trace s' = started ∧ r = Raises UnicodeDecodeError
    | NotStarted => trace s' = started ∧ r = Raises OSError
    end.
Proof.
  unfold run_node_srt2subtitles, try_except, check_output, ask, print, emit,
    lift, raise.
  unfold mbind, M_bind, mret, M_ret.
  destruct (Py.int_of_float fps) as [n|e]; simpl.
  2:{ intros [= <- <-]. left. split; [done|by exists e]. }
  fold (srt2subtitles_cmd srt_path n).
  destruct (env_run E (srt2subtitles_cmd srt_path n) (world s))
    as [w1 [status out|]] eqn:Hrun; simpl.
  - destruct status as [|p|p]; simpl.
    + intros [= <- <-]. right. by exists n, (Exited 0 out).
    + destruct out as [text|]; simpl; intros [= <- <-]; right.
      * by exists n, (Exited (Z.pos p) (Utf8 text)).
      * by exists n, (Exited (Z.pos p) NotUtf8).
    + destruct out as [text|]; simpl; intros [= <- <-]; right.
      * by exists n, (Exited (Z.neg p) (Utf8 text)).
      * by exists n, (Exited (Z.neg p) NotUtf8).
  - intros [= <- <-]. right. by exists n, NotStarted.
Qed.

(** The last step of [main], which looks for [subtitles.fcpxml]: it only
    fails when moving the file does. *)
Lemma relocation_cases (out_folder : string) (s s' : state W) (r : result unit) :
  (cwd ← getcwd E;
   in_cwd ← isfile E (Py.path_join cwd "subtitles.fcpxml");
   if in_cwd : bool then
     shutil_move E (Py.path_join cwd "subtitles.fcpxml")
                   (Py.path_join out_folder "subtitles.fcpxml");;
     print (MsgFcpxMoved (Py.path_join out_folder "subtitles.fcpxml"))
   else
     in_dest ← isfile E (Py.path_join out_folder "subtitles.fcpxml");
     if in_dest : bool
     then print (MsgFcpxAlready (Py.path_join out_folder "subtitles.fcpxml"))
     else print MsgFcpxNotFound) s = (s', r) →
  ∃ new, trace s' = new ++ trace s ∧ Forall before_converting new ∧
         (r = Returns tt ∨ ∃ src dst, List.In (EMove src dst false) new).
Proof.
  unfold getcwd, isfile, shutil_move, demand, ask, print, emit, raise.
  unfold mbind, M_bind, mret, M_ret.
  destruct (env_getcwd E (world s)) as [w2 cwd]. simpl.
  destruct (env_isfile E _ w2) as [w3 [|]]; simpl.
  - destruct (env_move E _ _ w3) as [w4 [|]]; simpl; intros [= <- <-]; simpl.
    + eexists [_; _; _; _]. split; [done|]. split; [by repeat constructor|by left].
    + eexists [_; _; _]. split; [done|]. split; [by repeat constructor|].
      right. eexists _, _. by left.
  - destruct (env_isfile E _ w3) as [w4 [|]]; simpl; intros [= <- <-]; simpl;
      (eexists [_; _; _; _]; split; [done|]; split;
         [by repeat constructor|by left]).
Qed.

(** X12: a failure of the converter that [run_node_srt2subtitles] could
    report does not abort the run: unless moving a stale
    [subtitles.fcpxml] fails afterwards, [main] returns, and the process
    exits with code 0, the output of the converter having been printed. *)
Lemma main_survives_reported_failure (w : W)
    (args : list string) (status : Z) (text : string) :
  let outcome := run (main E) w in
  List.In (ERun ("srt2subtitles"%string :: args) (Exited status (Utf8 text)))
          outcome.1 →
  status ≠ 0 →
  (∀ src dst, ¬ List.In (EMove src dst false) outcome.1) →
  outcome.2 = Returns tt ∧ exit_code outcome.2 = 0 ∧
  List.In (EStdout (MsgToolError text)) outcome.1.
Proof.
  unfold run.
  destruct (main E {| world := w; trace := [] |}) as [s' r] eqn:H.
  simpl. intros Hin Hstatus Hmoves. rewrite <- List.in_rev in Hin.
  setoid_rewrite <- List.in_rev in Hmoves. rewrite <- List.in_rev.
  assert (Hnever : ∀ l, Forall before_converting l →
            ¬ List.In (ERun ("srt2subtitles"%string :: args)
                            (Exited status (Utf8 text))) l).
  { intros l Hl Hin'. rewrite Forall_forall in Hl.
    apply (Hl (ERun ("srt2subtitles"%string :: args) (Exited status (Utf8 text)))).
    by apply list_elem_of_In. }
  assert (Hinv : Forall before_converting
                   (trace {| world := w; trace := [] |})) by constructor.
  unfold main in H.
  repeat match type of H with
         | (run_node_srt2subtitles _ _ _ _ ≫= _) _ = _ => fail 1
         | (_ ≫= _) _ = _ =>
             apply (step_quiet before_converting) in H;
               [destruct H as [H | (? & ? & Hinv' & H)];
                  [by apply Hnever in Hin
                  | clear Hinv; rename Hinv' into Hinv; cbv beta zeta in H]
               | quiet; done
               | exact Hinv]
         | match ?segments with [] => _ | _ :: _ => _ end _ = _ =>
             destruct segments;
               [exfalso; revert H;
                match goal with
                | |- ?m ?s0 = _ → _ =>
                    assert (Hq : quiet before_converting m) by (quiet; done);
                    intros H; destruct (Hq _ _ _ H) as (new & Htr & Hnew);
                    apply (Hnever (trace s')); [|done];
                    rewrite Htr; by apply Forall_app
                end|]
         end.
  assert (Hstart : ∀ cmd outcome msg past,
            Forall before_converting past →
            List.In (ERun ("srt2subtitles"%string :: args)
                          (Exited status (Utf8 text)))
                    (ERun cmd outcome :: EStdout msg :: past) →
            outcome = Exited status (Utf8 text)).
  { intros cmd outcome msg past Hpast [[= _ ->] | [[=] | Hpast']]; [done|].
    by apply Hnever in Hpast'. }
  apply bind_run in H as [(e & H & ->) | (s1 & converted & H & Htail)].
  - (* the conversion raises *)
    exfalso. apply run_node_cases in H as [[Htr _] | (n & outcome & H)].
    { rewrite Htr in Hin. by apply Hnever in Hin. }
    cbv zeta in H.
    destruct outcome as [[|p|p] [t|]|]; destruct H as [Htr [=]];
      rewrite Htr in Hin; by apply Hstart in Hin.
  - (* the conversion returns, the relocation follows *)
    apply relocation_cases in Htail as (new & Htr' & Hnew & Hr).
    rewrite Htr' in Hin, Hmoves |- *.
    apply List.in_app_or in Hin as [Hin | Hin]; [by apply Hnever in Hin|].
    apply run_node_cases in H as [[_ [e [=]]] | (n & outcome & H)].
    cbv zeta in H.
    destruct outcome as [[|p|p] [t|]|]; destruct H as [Htr [= ->]];
      rewrite Htr in Hin |- *;
      try (apply Hstart in Hin; [|done]; injection Hin as <-; done);
      (destruct Hin as [[=] | Hin]; apply Hstart in Hin; [|done];
       injection Hin as _ <-);
      (destruct Hr as [-> | (src & dst & Hmove)];
       [ split; [done|]; split; [done|]; apply List.in_or_app; right; by left
       | exfalso; apply (Hmoves src dst); apply List.in_or_app; by left ]).
Qed.

End Conversion.

Lemma main_survives_reported_failure_witness :
  let outcome :=
    run (main (scripted (with_convert (Exited 2 (Utf8 "bad input"))))) tt in
  outcome.2 = Returns tt ∧ exit_code outcome.2 = 0 ∧
  List.In (EStdout (MsgToolError "bad input")) outcome.1.
Proof.
  apply (main_survives_reported_failure
           (scripted (with_convert (Exited 2 (Utf8 "bad input")))) tt
           ["output/001/subtitles.srt"; "29"]%string 2 "bad input").
  - vm_compute. tauto.
  - lia.
  - intros src dst. vm_compute. intros H.
    repeat (destruct H as [H | H]; [discriminate H|]). exact H.
Defined.

(** * Further properties of the script *)

(** ** [format_timestamp] *)

Lemma length_append (a b : string) :
  String.length (a +:+ b) = (String.length a + String.length b)%nat.
Proof.
  induction a as [|c a IH]; [done|]. rewrite append_cons. simpl. by rewrite IH.
Qed.

Lemma length_zeros (k : nat) : String.length (Py.zeros k) = k.
Proof. induction k as [|k IH]; simpl; [done|]. by rewrite IH. Qed.

(** A field printed with [0<width>d] has at least [width] characters. *)
Lemma format_0d_length_ge (width : nat) (n : Z) :
  (width <= String.length (Py.format_0d width n))%nat.
Proof.
  unfold Py.format_0d. rewrite !length_append, length_zeros. lia.
Qed.

(** X1: whenever [format_timestamp] returns, its result reads
    [hours:minutes:seconds,milliseconds] where the minutes and the seconds
    have exactly two characters, the hours at least two and the
    milliseconds at least three, so the whole has at least twelve. *)
Theorem format_timestamp_shape (v : Py.value) (text : string) :
  format_timestamp v = Returns text →
  ∃ h m s f,
    text = h +:+ ":" +:+ m +:+ ":" +:+ s +:+ "," +:+ f ∧
    (2 <= String.length h)%nat ∧ String.length m = 2%nat ∧
    String.length s = 2%nat ∧ (3 <= String.length f)%nat ∧
    (12 <= String.length text)%nat.
Proof.
  intros H. apply fmap_Returns in H as (t & Ht & ->).
  destruct (minutes_secs_two_digits v t Ht) as [Hm Hs].
  exists (Py.format_0d 2 (hours t)), (Py.format_0d 2 (minutes t)),
         (Py.format_0d 2 (secs t)), (Py.format_0d 3 (ms t)).
  pose proof (format_0d_length_ge 2 (hours t)).
  pose proof (format_0d_length_ge 3 (ms t)).
  repeat split; try done.
  unfold render_timestamp. rewrite !length_append, Hm, Hs. simpl. lia.
Qed.

Lemma format_timestamp_shape_witness :
  ∃ h m s f,
    "01:02:05,457"%string = h +:+ ":" +:+ m +:+ ":" +:+ s +:+ "," +:+ f ∧
    (2 <= String.length h)%nat ∧ String.length m = 2%nat ∧
    String.length s = 2%nat ∧ (3 <= String.length f)%nat ∧
    (12 <= String.length "01:02:05,457")%nat.
Proof.
  apply (format_timestamp_shape (Py.VFloat 3725.4567)). vm_compute. reflexivity.
Defined.

Lemma bind_Raises {A B} (f : A → result B) (r : result A) (e : exn) :
  r ≫= f = Raises e → r = Raises e ∨ ∃ a, r = Returns a ∧ f a = Raises e.
Proof. destruct r as [a|e']; simpl; [right; by exists a|left; congruence]. Qed.

Lemma float_of_int_raises (n : Z) (e : exn) :
  Py.float_of_int n = Raises e → numeric_error e.
Proof.
  unfold Py.float_of_int.
  destruct (binary_normalize _ _ _ _ _); try discriminate.
  intros [= <-]. by right.
Qed.

Lemma floor_float_raises (x : float) (e : exn) :
  Py.floor_float x = Raises e → numeric_error e.
Proof.
  unfold Py.floor_float. destruct (Prim2SF x); try discriminate;
    intros [= <-]; [by right|by left].
Qed.

Lemma round_float_raises (x : float) (e : exn) :
  Py.round_float x = Raises e → numeric_error e.
Proof.
  unfold Py.round_float. destruct (Prim2SF x); try discriminate;
    intros [= <-]; [by right|by left].
Qed.

Lemma int_of_float_raises (x : float) (e : exn) :
  Py.int_of_float x = Raises e → numeric_error e.
Proof.
  unfold Py.int_of_float. destruct (Prim2SF x); try discriminate;
    intros [= <-]; [by right|by left].
Qed.

Lemma timedelta_seconds_raises (n : Z) (e : exn) :
  Py.timedelta_seconds n = Raises e → numeric_error e.
Proof.
  unfold Py.timedelta_seconds. destruct (_ <? _); [|discriminate].
  intros [= <-]. by right.
Qed.

Lemma total_seconds_raises (td : Py.timedelta) (e : exn) :
  Py.total_seconds td = Raises e → numeric_error e.
Proof.
  unfold Py.total_seconds, Py.int_truediv.
  change (10 ^ 6 =? 0) with false. cbv iota.
  destruct (SFdiv _ _ _ _); try discriminate. intros [= <-]. by right.
Qed.

(** The class of what [format_timestamp] raises. *)
Lemma format_timestamp_error_class (v : Py.value) (e : exn) :
  format_timestamp v = Raises e →
  if is_number v then numeric_error e else e = TypeError.
Proof.
  unfold format_timestamp.
  destruct (timestamp_fields v) as [t|e'] eqn:H; simpl; [discriminate|].
  intros [= ->]. revert H. unfold timestamp_fields.
  assert (Hsub : ∀ (u : Py.value) k e, Py.sub_int u k = Raises e →
            is_number u = true → numeric_error e).
  { intros [] k e0; simpl; try discriminate. intros H0 _.
    apply bind_Raises in H0 as [H0 | (? & _ & [=])].
    by apply float_of_int_raises in H0. }
  assert (Hmul : ∀ (u : Py.value) k e, Py.mul_int u k = Raises e →
            is_number u = true → numeric_error e).
  { intros [] k e0; simpl; try discriminate. intros H0 _.
    apply bind_Raises in H0 as [H0 | (? & _ & [=])].
    by apply float_of_int_raises in H0. }
  assert (Hround : ∀ (u : Py.value) e, Py.int_round u = Raises e →
            is_number u = true → numeric_error e).
  { intros [] e0; simpl; try discriminate. intros H0 _.
    by apply round_float_raises in H0. }
  assert (Hfloor : ∀ (u : Py.value) e, Py.math_floor u = Raises e →
            is_number u = true → numeric_error e).
  { intros [] e0; simpl; try discriminate. intros H0 _.
    by apply floor_float_raises in H0. }
  assert (Hsubn : ∀ (u : Py.value) k u', Py.sub_int u k = Returns u' →
            is_number u' = true).
  { intros [] k u'; simpl; try discriminate; [by intros [= <-]|].
    intros H0. apply bind_Returns in H0 as (? & _ & [= <-]). done. }
  assert (Hmuln : ∀ (u : Py.value) k u', Py.mul_int u k = Returns u' →
            is_number u' = true).
  { intros [] k u'; simpl; try discriminate; [by intros [= <-]|].
    intros H0. apply bind_Returns in H0 as (? & _ & [= <-]). done. }
  assert (Hrest : ∀ (u : Py.value), is_number u = true →
            (whole ← Py.math_floor u;
             frac ← Py.sub_int u whole;
             scaled ← Py.mul_int frac 1000;
             ms ← Py.int_round scaled;
             td ← Py.timedelta_seconds whole;
             ts ← Py.total_seconds td;
             total ← Py.int_of_float ts;
             Returns {| hours := total / 3600;
                        minutes := (total mod 3600) / 60;
                        secs := total mod 60;
                        ms := ms |}) = Raises e →
            numeric_error e).
  { intros u Hu H.
    apply bind_Raises in H as [H | (whole & _ & H)]; [by eapply Hfloor|].
    apply bind_Raises in H as [H | (frac & Hfrac & H)]; [by eapply Hsub|].
    apply Hsubn in Hfrac.
    apply bind_Raises in H as [H | (scaled & Hscaled & H)]; [by eapply Hmul|].
    apply Hmuln in Hscaled.
    apply bind_Raises in H as [H | (? & _ & H)]; [by eapply Hround|].
    apply bind_Raises in H as [H | (? & _ & H)];
      [by apply timedelta_seconds_raises in H|].
    apply bind_Raises in H as [H | (? & _ & H)];
      [by apply total_seconds_raises in H|].
    apply bind_Raises in H as [H | (? & _ & H)];
      [by apply int_of_float_raises in H|].
    discriminate H. }
  destruct v as [|n|x|s]; simpl; try by intros [= <-].
  - apply Hrest. by destruct (n <? 0).
  - apply Hrest. by destruct (PrimFloat.ltb x 0).
Qed.

(** X2: applied to [None] or to a string, [format_timestamp] raises
    [TypeError]; applied to an [int] or a [float] it never does: whatever
    it raises then is a [ValueError] or an [OverflowError]. *)
Theorem format_timestamp_raises (v : Py.value) :
  (v = Py.VNone ∨ (∃ t, v = Py.VStr t) → format_timestamp v = Raises TypeError) ∧
  ((∃ n, v = Py.VInt n) ∨ (∃ x, v = Py.VFloat x) →
   ∀ e, format_timestamp v = Raises e → e = ValueError ∨ e = OverflowError).
Proof.
  split.
  - by intros [-> | [t ->]].
  - intros Hv e He. apply format_timestamp_error_class in He.
    by destruct Hv as [[n ->] | [x ->]].
Qed.

Lemma format_timestamp_raises_witness :
  format_timestamp (Py.VStr "1.5") = Raises TypeError ∧
  (ValueError = ValueError ∨ ValueError = OverflowError).
Proof.
  split.
  - apply (proj1 (format_timestamp_raises (Py.VStr "1.5"))). right. by eexists.
  - apply (proj2 (format_timestamp_raises (Py.VFloat nan))).
    + right. by eexists.
    + vm_compute. reflexivity.
Defined.

(** ** [next_output_folder] *)

Lemma picked_max_cons (pick : string → bool) (x : string) (l : list string) :
  foldr Z.max 0 (slot_number <$> List.filter pick (x :: l))
  = if pick x
    then Z.max (slot_number x) (foldr Z.max 0 (slot_number <$> List.filter pick l))
    else foldr Z.max 0 (slot_number <$> List.filter pick l).
Proof. simpl. by destruct (pick x). Qed.

Lemma next_slot_permutation (pick : string → bool) (names names' : list string) :
  names ≡ₚ names' → next_slot pick names = next_slot pick names'.
Proof.
  unfold next_slot. intros Hp. f_equal.
  induction Hp as [|x l l' _ IH|x y l|l l' l'' _ IH1 _ IH2].
  - done.
  - rewrite !picked_max_cons. by rewrite IH.
  - rewrite !picked_max_cons. destruct (pick x), (pick y); lia.
  - by rewrite IH1.
Qed.

(** X3: the folder [next_output_folder] picks does not depend on the order
    in which [os.listdir] returns the entries. *)
Theorem next_folder_name_order_independent (names names' : list string) :
  names ≡ₚ names' → next_folder_name names = next_folder_name names'.
Proof.
  intros Hp. rewrite !next_folder_name_slot.
  by rewrite (next_slot_permutation _ _ _ Hp).
Qed.

Lemma next_folder_name_order_independent_witness :
  next_folder_name ["002"; "abc"; "005"]%string
  = next_folder_name ["005"; "002"; "abc"]%string.
Proof.
  apply next_folder_name_order_independent.
  change (["002"; "abc"; "005"]%string) with (["002"; "abc"]%string ++ ["005"%string]).
  by rewrite Permutation_app_comm.
Defined.

(** The numbers the pattern lets through lie between 0 and 999. *)
Lemma slot_number_bound (name : string) :
  Py.re_match_d3 name = true → 0 <= slot_number name <= 999.
Proof.
  destruct name as [|a [|b [|c rest]]]; try discriminate. simpl.
  intros H. apply andb_true_iff in H as [H Hrest].
  apply andb_true_iff in H as [H Hc]. apply andb_true_iff in H as [Ha Hb].
  apply isdecimal_cases in Ha, Hb, Hc. apply eqb_LF_cases in Hrest.
  simpl in Ha, Hb, Hc.
  destruct Hrest as [-> | ->];
    repeat match goal with
           | H : _ ∨ _ |- _ => destruct H as [<- | H]
           | H : False |- _ => destruct H
           end;
    (split; vm_compute; discriminate).
Qed.

Lemma next_slot_range (names : list string) :
  1 <= next_slot Py.re_match_d3 names <= 1000.
Proof.
  unfold next_slot.
  assert (0 <= foldr Z.max 0 (slot_number <$> List.filter Py.re_match_d3 names)
          <= 999); [|lia].
  induction names as [|x names IH]; [simpl; lia|].
  rewrite picked_max_cons. destruct (Py.re_match_d3 x) eqn:Hx; [|done].
  apply slot_number_bound in Hx. lia.
Qed.

(** A number from 1 to 999 is printed as a name of exactly three digits
    that spells it. *)
Lemma format_0d_3_name (k : Z) :
  1 <= k <= 999 →
  three_digits (Py.format_0d 3 k) = true ∧ slot_number (Py.format_0d 3 k) = k.
Proof.
  intros Hk.
  assert (H : List.forallb
                (λ i, let name := Py.format_0d 3 (Z.of_nat i) in
                      three_digits name && (slot_number name =? Z.of_nat i))
                (List.seq 1 999) = true) by (vm_compute; reflexivity).
  rewrite List.forallb_forall in H.
  specialize (H (Z.to_nat k)). rewrite Z2Nat.id in H by lia.
  assert (Hin : List.In (Z.to_nat k) (List.seq 1 999)) by (apply List.in_seq; lia).
  apply H, andb_true_iff in Hin as [H1 H2]. by apply Z.eqb_eq in H2.
Qed.

Lemma three_digits_match (name : string) :
  three_digits name = true → Py.re_match_d3 name = true.
Proof.
  destruct name as [|a [|b [|c [|]]]]; try discriminate. simpl.
  intros ->. done.
Qed.

(** The greatest number is the number of one of the names the pattern
    lets through. *)
Lemma picked_max_attained (names : list string) :
  0 < foldr Z.max 0 (slot_number <$> List.filter Py.re_match_d3 names) →
  ∃ name, List.In name names ∧ Py.re_match_d3 name = true ∧
          slot_number name
          = foldr Z.max 0 (slot_number <$> List.filter Py.re_match_d3 names).
Proof.
  induction names as [|x names IH]; [simpl; lia|].
  rewrite picked_max_cons. destruct (Py.re_match_d3 x) eqn:Hx.
  - destruct (Z.max_spec (slot_number x)
                (foldr Z.max 0 (slot_number <$> List.filter Py.re_match_d3 names)))
      as [[_ Hm] | [_ Hm]]; rewrite Hm; intros Hpos.
    + destruct (IH Hpos) as (name & Hin & Hname & Hk).
      exists name. split; [by right|done].
    + exists x. split; [by left|done].
  - intros Hpos. destruct (IH Hpos) as (name & Hin & Hname & Hk).
    exists name. split; [by right|done].
Qed.

(** X4: the number of the new folder lies between 1 and 1000, and it is
    1000 exactly when an entry that the pattern lets through is numbered
    999.  Short of that, the name has exactly three digits and is the name
    of no entry the base directory already holds.  In that case the name
    is the four-character [1000], and if the directory already holds an
    entry of that name, the name returned is not new. *)
Theorem next_folder_name_fresh (names : list string) :
  let full := ∃ name, List.In name names ∧ Py.re_match_d3 name = true ∧
                      slot_number name = 999 in
  ∃ k, 1 <= k <= 1000 ∧
       next_folder_name names = Returns (Py.format_0d 3 k) ∧
       (k = 1000 ↔ full) ∧
       (¬ full → three_digits (Py.format_0d 3 k) = true ∧
                 ¬ List.In (Py.format_0d 3 k) names) ∧
       (full → Py.format_0d 3 k = "1000"%string ∧
               (List.In "1000"%string names → List.In (Py.format_0d 3 k) names)).
Proof.
  intros full. exists (next_slot Py.re_match_d3 names).
  pose proof (next_slot_range names) as Hrange.
  assert (Hfull : next_slot Py.re_match_d3 names = 1000 ↔ full).
  { unfold next_slot, full. split.
    - intros Hk.
      destruct (picked_max_attained names) as (name & Hin & Hname & Hmax); [lia|].
      exists name. split; [done|]. split; [done|]. lia.
    - intros (name & Hin & Hname & Hnum).
      assert (slot_number name
              <= foldr Z.max 0 (slot_number <$> List.filter Py.re_match_d3 names)).
      { apply foldr_max_ge, list_elem_of_fmap. exists name. split; [done|].
        apply list_elem_of_In, List.filter_In. by split. }
      unfold next_slot in Hrange. lia. }
  split; [done|]. split; [apply next_folder_name_slot|]. split; [done|]. split.
  - intros Hnot.
    assert (Hk : next_slot Py.re_match_d3 names <= 999).
    { destruct (Z.eq_dec (next_slot Py.re_match_d3 names) 1000) as [Heq | Hne];
        [by apply Hfull in Heq|lia]. }
    destruct (format_0d_3_name (next_slot Py.re_match_d3 names)) as [H3 Hn]; [lia|].
    split; [done|]. intros Hin.
    assert (slot_number (Py.format_0d 3 (next_slot Py.re_match_d3 names))
            <= foldr Z.max 0 (slot_number <$> List.filter Py.re_match_d3 names)).
    { apply foldr_max_ge, list_elem_of_fmap. eexists. split; [done|].
      apply list_elem_of_In, List.filter_In. split; [done|].
      by apply three_digits_match. }
    rewrite Hn in H. unfold next_slot in H. lia.
  - intros Hyes. apply Hfull in Hyes. rewrite Hyes.
    split; [vm_compute; reflexivity|].
    intros Hin. vm_compute (Py.format_0d 3 1000). exact Hin.
Qed.

Lemma next_folder_name_fresh_witness :
  ∃ k, 1 <= k <= 1000 ∧
       next_folder_name ["998"; "999"; "1000"]%string = Returns (Py.format_0d 3 k) ∧
       Py.format_0d 3 k = "1000"%string ∧
       List.In (Py.format_0d 3 k) ["998"; "999"; "1000"]%string.
Proof.
  destruct (next_folder_name_fresh ["998"; "999"; "1000"]%string)
    as (k & Hk & Hname & _ & _ & Hfull).
  exists k. split; [done|]. split; [done|].
  assert (Hyes : ∃ name, List.In name ["998"; "999"; "1000"]%string ∧
                         Py.re_match_d3 name = true ∧ slot_number name = 999).
  { exists "999"%string. split; [right; by left|]. split; vm_compute; reflexivity. }
  destruct (Hfull Hyes) as [H1000 Hin]. split; [done|].
  apply Hin. right. right. by left.
Defined.

(** X5: [next_output_folder] can only fail through the file system: the
    conversion of the names to numbers never raises, since the pattern has
    let nothing but digits through, so every exception is an [OSError]
    that follows a refusal of [os.makedirs] or [os.listdir]. *)
Theorem next_output_folder_raises_OSError {W} (E : environment W)
    (base : string) (s s' : state W) (e : exn) :
  next_output_folder E base s = (s', Raises e) →
  e = OSError ∧
  ∃ path rest,
    trace s' = EMakeDirs path false :: rest ∨ trace s' = EListDir path None :: rest.
Proof.
  unfold next_output_folder, makedirs, listdir, demand, expect, ask, lift, raise.
  unfold mbind, M_bind, mret, M_ret.
  destruct (env_makedirs E base (world s)) as [w1 [|]]; simpl.
  2:{ intros [= <- <-]. split; [done|]. eexists _, _. by left. }
  destruct (env_listdir E base w1) as [w2 [entries|]]; simpl.
  2:{ intros [= <- <-]. split; [done|]. eexists _, _. by right. }
  rewrite next_folder_name_slot. simpl.
  destruct (env_makedirs E _ w2) as [w3 [|]]; simpl; [discriminate|].
  intros [= <- <-]. split; [done|]. eexists _, _. by left.
Qed.

Lemma next_output_folder_raises_OSError_witness :
  ∃ s', next_output_folder (scripted unreadable_base) "output"
          {| world := tt; trace := [] |} = (s', Raises OSError).
Proof.
  destruct (next_output_folder (scripted unreadable_base) "output"
              {| world := tt; trace := [] |}) as [s' [a|e]] eqn:H.
  - exfalso. vm_compute in H. discriminate H.
  - exists s'.
    by destruct (next_output_folder_raises_OSError _ _ _ _ _ H) as [-> _].
Defined.

(** ** [check_ffmpeg] and [download_youtube] *)

(** X6: when [ffmpeg] or [ffprobe] is not installed the run stops at once:
    the message goes to the standard error, the process exits with code 1,
    and nothing has happened but the reading of the command line and the
    search for the two programs. *)
Theorem main_requires_ffmpeg {W} (E : environment W) (input_path : string)
    (w w0 : W) (name : string) :
  env_parse_args E w = (w0, Parsed input_path) →
  name = "ffmpeg"%string ∨ name = "ffprobe"%string →
  (∀ w', (env_which E name w').2 = false) →
  exit_code (run (main E) w).2 = 1 ∧
  Forall preflight_only (run (main E) w).1 ∧
  List.In (EStderr ErrFfmpegMissing) (run (main E) w).1.
Proof.
  intros Hparse Hname Hmissing.
  unfold run, main. erewrite parse_args_bind by exact Hparse.
  unfold check_ffmpeg, which, ask, stderr_write, emit, sys_exit, raise.
  unfold mbind, M_bind, mret, M_ret. simpl.
  destruct (env_which E "ffmpeg" w0) as [w1 ffmpeg] eqn:H1; simpl.
  destruct ffmpeg; simpl.
  2:{ split; [done|]. split; [by repeat constructor|]. right. right. by left. }
  destruct (env_which E "ffprobe" w1) as [w2 ffprobe] eqn:H2; simpl.
  destruct ffprobe; simpl.
  2:{ split; [done|]. split; [by repeat constructor|]. do 3 right. by left. }
  exfalso. destruct Hname as [-> | ->].
  - specialize (Hmissing w0). by rewrite H1 in Hmissing.
  - specialize (Hmissing w1). by rewrite H2 in Hmissing.
Qed.

Lemma main_requires_ffmpeg_witness :
  exit_code (run (main (scripted without_ffmpeg)) tt).2 = 1 ∧
  Forall preflight_only (run (main (scripted without_ffmpeg)) tt).1 ∧
  List.In (EStderr ErrFfmpegMissing) (run (main (scripted without_ffmpeg)) tt).1.
Proof.
  apply (main_requires_ffmpeg (scripted without_ffmpeg) "talk.mp4" tt tt "ffmpeg").
  - reflexivity.
  - by left.
  - intros []. vm_compute. reflexivity.
Defined.

(** X7: without the [yt_dlp] module [download_youtube] writes its message
    to the standard error and exits with code 1 before it creates the
    download directory or downloads anything; with the module, the
    directory is created first and the download is asked to write
    [video.<ext>] inside it, and its file name is what is returned. *)
Theorem download_youtube_outcomes {W} (E : environment W)
    (url download_dir : string) (s : state W) (w1 : W) (found : bool) :
  env_import E "yt_dlp" (world s) = (w1, found) →
  (found = false →
   download_youtube E url download_dir s
   = ({| world := w1;
         trace := EStderr ErrYtDlpMissing :: EImport "yt_dlp" false :: trace s |},
      Raises (SystemExit 1))) ∧
  (found = true →
   ∀ w2 w3 file,
     env_makedirs E download_dir w1 = (w2, true) →
     env_download E url (Py.path_join download_dir "video.%(ext)s") w2
       = (w3, Some file) →
     download_youtube E url download_dir s
     = ({| world := w3;
           trace := EDownload url (Py.path_join download_dir "video.%(ext)s")
                              (Some file)
                    :: EStdout (MsgDownloading url)
                    :: EMakeDirs download_dir true
                    :: EImport "yt_dlp" true :: trace s |},
        Returns file)).
Proof.
  intros Himport. split; intros ->.
  - unfold download_youtube, try_except, import, demand, ask, stderr_write,
      emit, sys_exit, raise.
    unfold mbind, M_bind, mret, M_ret. by rewrite Himport.
  - intros w2 w3 file Hmk Hdl.
    unfold download_youtube, try_except, import, makedirs, demand, expect, ask,
      print, emit, raise.
    unfold mbind, M_bind, mret, M_ret. rewrite Himport. simpl.
    rewrite Hmk. simpl. by rewrite Hdl.
Qed.

Lemma download_youtube_outcomes_witness :
  download_youtube (scripted without_yt_dlp) "https://youtu.be/x" "temp_dl"
    {| world := tt; trace := [] |}
  = ({| world := tt;
        trace := [EStderr ErrYtDlpMissing; EImport "yt_dlp" false] |},
     Raises (SystemExit 1)).
Proof.
  apply (proj1 (download_youtube_outcomes (scripted without_yt_dlp)
                  "https://youtu.be/x" "temp_dl"
                  {| world := tt; trace := [] |} tt false eq_refl)).
  reflexivity.
Defined.

(** ** [write_srt] when something fails *)

(** X8: when the file cannot be opened [write_srt] raises [OSError]
    without looking at the segments: nothing is written, whatever the
    segments are. *)
Theorem write_srt_open_fails {W} (E : environment W) (segments : list segment)
    (out_path : string) (s : state W) (w : W) :
  env_open E out_path (world s) = (w, false) →
  write_srt E segments out_path s
  = ({| world := w; trace := EOpen out_path false :: trace s |}, Raises OSError).
Proof.
  intros Hopen. unfold write_srt, open_w, demand, ask, raise.
  unfold mbind, M_bind, mret, M_ret. by rewrite Hopen.
Qed.

Lemma write_srt_open_fails_witness :
  write_srt (read_only (scripted healthy)) hello_world "out.srt"
    {| world := tt; trace := [] |}
  = ({| world := tt; trace := [EOpen "out.srt" false] |}, Raises OSError).
Proof.
  apply (write_srt_open_fails (read_only (scripted healthy)) hello_world
           "out.srt" {| world := tt; trace := [] |} tt).
  reflexivity.
Defined.

Lemma enumerate_app {A} (l1 l2 : list A) (start : Z) :
  enumerate start (l1 ++ l2)
  = enumerate start l1 ++ enumerate (start + Z.of_nat (length l1)) l2.
Proof.
  revert start. induction l1 as [|x l1 IH]; intros start; simpl.
  - by rewrite Z.add_0_r.
  - rewrite IH. do 3 f_equal. lia.
Qed.

Lemma for_each_app {S A} (body : A → M S unit) (l1 l2 : list A) (f f1 : S) :
  for_each body l1 f = (f1, Returns tt) →
  for_each body (l1 ++ l2) f = for_each body l2 f1.
Proof.
  revert f. induction l1 as [|x l1 IH]; intros f; simpl.
  - by intros [= <-].
  - unfold mbind, M_bind. destruct (body x f) as [f' [[]|e]]; [|discriminate].
    apply IH.
Qed.

(** A segment that has no cue block stops the loop: nothing of it is
    written when its text is at fault, its number alone when a timestamp
    is. *)
Lemma write_cue_fails (cue : Z * segment) (f : string) :
  (∀ block, ¬ cue_of cue block) →
  ∃ e, write_cue cue f = (f, Raises e) ∨
       write_cue cue f = (f +:+ Py.str_of_int cue.1 +:+ Py.LF, Raises e).
Proof.
  destruct cue as [i seg]. intros Hno. unfold write_cue.
  unfold mbind, M_bind, lift, f_write. simpl.
  destruct (value_strip _) as [text|e] eqn:Htext; [|exists e; by left].
  destruct (format_timestamp (seg_get seg "start" _)) as [t1|e] eqn:H1;
    [|exists e; by right].
  destruct (format_timestamp (seg_get seg "end" _)) as [t2|e] eqn:H2;
    [|exists e; by right].
  destruct (Hno (cue_block i t1 t2 text)). exists t1, t2, text.
  by rewrite !stamp_format, cue_text_strip.
Qed.

(** X9: when a segment cannot be printed, [write_srt] still closes the
    file and then lets the exception through: the file keeps the cue
    blocks of the segments before the faulty one, followed at most by the
    number of the faulty one, and nothing of the segments after it. *)
Theorem write_srt_keeps_partial_file {W} (E : environment W)
    (good : list segment) (bad : segment) (rest : list segment)
    (blocks : list string) (out_path : string) (s : state W) (w : W) :
  env_open E out_path (world s) = (w, true) →
  blocks_of good blocks →
  (∀ block, ¬ cue_of (Z.of_nat (length good) + 1, bad) block) →
  ∃ partial e,
    write_srt E (good ++ bad :: rest) out_path s
    = (wrote E out_path (Py.join "" blocks +:+ partial) w s, Raises e) ∧
    (partial = EmptyString ∨
     partial = Py.str_of_int (Z.of_nat (length good) + 1) +:+ Py.LF).
Proof.
  intros Hopen Hblocks Hbad.
  rewrite (write_srt_written E _ _ _ _ Hopen).
  apply blocks_of_enumerate in Hblocks.
  assert (Hgood : for_each write_cue (enumerate 1 good) EmptyString
                  = (Py.join "" blocks, Returns tt)).
  { apply for_each_write_cue. by exists blocks. }
  unfold write_cues. rewrite enumerate_app.
  rewrite (for_each_app _ _ _ _ _ Hgood). cbn [enumerate for_each].
  replace (1 + Z.of_nat (length good)) with (Z.of_nat (length good) + 1) by lia.
  destruct (write_cue_fails (Z.of_nat (length good) + 1, bad)
              (Py.join "" blocks) Hbad) as [e [He | He]].
  - assert (Hrun : ∀ k : unit → M string unit,
              (write_cue (Z.of_nat (length good) + 1, bad) ≫= k)
                (Py.join "" blocks) = (Py.join "" blocks, Raises e)).
    { intros k. unfold mbind, M_bind. by rewrite He. }
    rewrite Hrun. exists EmptyString, e. split; [|by left].
    by rewrite append_nil_r.
  - assert (Hrun : ∀ k : unit → M string unit,
              (write_cue (Z.of_nat (length good) + 1, bad) ≫= k)
                (Py.join "" blocks)
              = (Py.join "" blocks
                 +:+ Py.str_of_int (Z.of_nat (length good) + 1) +:+ Py.LF,
                 Raises e)).
    { intros k. unfold mbind, M_bind. by rewrite He. }
    rewrite Hrun.
    exists (Py.str_of_int (Z.of_nat (length good) + 1) +:+ Py.LF), e.
    split; [done|by right].
Qed.

Lemma write_srt_keeps_partial_file_witness :
  ∃ partial e,
    write_srt (scripted healthy)
      ([seg 0 1.5 "Hello"] ++ seg nan 3 "World" :: [seg 3 4 "!"]) "out.srt"
      {| world := tt; trace := [] |}
    = (wrote (scripted healthy) "out.srt"
         (Py.join "" [cue_block 1 "00:00:00,000" "00:00:01,500" "Hello"]
          +:+ partial) tt {| world := tt; trace := [] |}, Raises e) ∧
    (partial = EmptyString ∨
     partial = Py.str_of_int (Z.of_nat (length [seg 0 1.5 "Hello"]) + 1) +:+ Py.LF).
Proof.
  apply (write_srt_keeps_partial_file (scripted healthy) [seg 0 1.5 "Hello"]
           (seg nan 3 "World") [seg 3 4 "!"]
           [cue_block 1 "00:00:00,000" "00:00:01,500" "Hello"]
           "out.srt" {| world := tt; trace := [] |} tt eq_refl).
  - apply blocks_of_enumerate. repeat constructor.
    exists "00:00:00,000"%string, "00:00:01,500"%string, "Hello"%string.
    repeat split; vm_compute; reflexivity.
  - intros block (t1 & t2 & text & H1 & _). vm_compute in H1. discriminate H1.
Defined.

(** ** [detect_fps] and [run_node_srt2subtitles] *)

(** X10: [detect_fps] runs [ffprobe] once and does nothing else, except
    that it prints a warning exactly when it falls back on 24.0 because
    its [try] block raised: a frame rate that was read, be it 24.0, comes
    without a warning. *)
Theorem detect_fps_events {W} (E : environment W) (video_path : string)
    (s : state W) :
  ∃ w outcome,
    env_run E (ffprobe_cmd video_path) (world s) = (w, outcome) ∧
    ((∃ out fps,
        outcome = Exited 0 out ∧ parse_fps out = Returns fps ∧
        detect_fps E video_path s
        = ({| world := w;
              trace := ERun (ffprobe_cmd video_path) outcome :: trace s |},
           Returns fps)) ∨
     (∃ e,
        is_Exception e = true ∧
        (∀ out, outcome = Exited 0 out → parse_fps out = Raises e) ∧
        detect_fps E video_path s
        = ({| world := w;
              trace := EStdout (MsgFpsWarning e)
                       :: ERun (ffprobe_cmd video_path) outcome :: trace s |},
           Returns 24%float))).
Proof.
  unfold detect_fps, try_except, probe_fps, check_output, ask, lift, print, emit.
  unfold mbind, M_bind, mret, M_ret, raise.
  destruct (env_run E (ffprobe_cmd video_path) (world s)) as [w outcome].
  exists w, outcome. split; [done|].
  destruct outcome as [status out|]; simpl.
  - destruct (Z.eqb_spec status 0) as [-> | Hstatus]; simpl.
    + destruct (parse_fps out) as [fps|e] eqn:Hparse.
      * left. by exists out, fps.
      * right. exists e. rewrite (parse_fps_raises _ _ Hparse).
        split; [done|]. split; [|done]. by intros ? [= <-].
    + right. exists (CalledProcessError status out).
      split; [done|]. split; [by intros ? [= ? _]|]. by destruct status.
  - right. exists OSError. by repeat split.
Qed.

(** X11: [run_node_srt2subtitles] passes the frame rate truncated to an
    integer; a frame rate that is NaN or infinite makes it raise before
    anything is printed or run.  Otherwise its result follows the end of
    the converter: the fixed name [subtitles.fcpxml] exactly when the exit
    status is 0, [None] after a failure whose output is text, and an
    exception when that output cannot be decoded or when the converter
    cannot be started at all, which the function does not catch. *)
Theorem run_node_outcomes {W} (E : environment W) (srt_path : string)
    (fps : float) (out_folder : string) (s : state W) :
  (∀ e, Py.int_of_float fps = Raises e →
        run_node_srt2subtitles E srt_path fps out_folder s = (s, Raises e)) ∧
  (∀ n w outcome,
     Py.int_of_float fps = Returns n →
     env_run E (srt2subtitles_cmd srt_path n) (world s) = (w, outcome) →
     (run_node_srt2subtitles E srt_path fps out_folder s).2
     = match outcome with
       | Exited 0 _ => Returns (Some "subtitles.fcpxml"%string)
       | Exited _ (Utf8 _) => Returns None
       | Exited _ NotUtf8 => Raises UnicodeDecodeError
       | NotStarted => Raises OSError
       end).
Proof.
  split.
  - intros e He. unfold run_node_srt2subtitles, lift.
    unfold mbind, M_bind. by rewrite He.
  - intros n w outcome Hn Hrun.
    unfold run_node_srt2subtitles, try_except, check_output, ask, print, emit,
      lift, raise.
    unfold mbind, M_bind, mret, M_ret. rewrite Hn. simpl.
    fold (srt2subtitles_cmd srt_path n). rewrite Hrun. simpl.
    destruct outcome as [[|p|p] [text|]|]; done.
Qed.

Lemma run_node_outcomes_witness :
  run_node_srt2subtitles (scripted healthy) "out.srt" nan "output/001"
    {| world := tt; trace := [] |}
  = ({| world := tt; trace := [] |}, Raises ValueError) ∧
  (run_node_srt2subtitles (scripted healthy) "out.srt" 29.97 "output/001"
     {| world := tt; trace := [] |}).2
  = Returns (Some "subtitles.fcpxml"%string).
Proof.
  split.
  - apply (proj1 (run_node_outcomes (scripted healthy) "out.srt" nan
                    "output/001" {| world := tt; trace := [] |})).
    vm_compute. reflexivity.
  - apply (proj2 (run_node_outcomes (scripted healthy) "out.srt" 29.97
                    "output/001" {| world := tt; trace := [] |})
             29 tt (Exited 0 (Utf8 ""))).
    + vm_compute. reflexivity.
    + vm_compute. reflexivity.
Defined.

(** ** What [main] does and does not do *)

Lemma quiet_run {W A} (P : event → Prop) (m : M (state W) A) (w : W) :
  quiet P m → Forall P (run m w).1.
Proof.
  intros Hq. unfold run.
  destruct (m {| world := w; trace := [] |}) as [s' r] eqn:Hm.
  destruct (Hq _ _ _ Hm) as (new & Htr & Hnew). simpl in *.
  rewrite Htr, app_nil_r. by apply Forall_rev.
Qed.

(** A step whose result is known to satisfy [Q] lets the rest of the
    computation rely on it. *)
Lemma quiet_bind_post {W A B} (P : event → Prop) (Q : A → Prop)
    (m : M (state W) A) (k : A → M (state W) B) :
  quiet P m → (∀ s s' a, m s = (s', Returns a) → Q a) →
  (∀ a, Q a → quiet P (k a)) → quiet P (m ≫= k).
Proof.
  intros Hm HQ Hk s s' r. unfold mbind, M_bind.
  destruct (m s) as [s1 [a|e]] eqn:Hms.
  - intros Hka. destruct (Hm _ _ _ Hms) as (n1 & H1 & F1).
    destruct (Hk a (HQ _ _ _ Hms) _ _ _ Hka) as (n2 & H2 & F2).
    exists (n2 ++ n1). split; [by rewrite H2, H1, app_assoc|].
    by apply Forall_app.
  - intros [= <- <-]. by apply (Hm _ _ _ Hms).
Qed.

(** The pieces of a split path hold no slash, so neither does a base
    name. *)
Lemma no_slash_rev_app (a b : string) :
  no_slash a = true → no_slash b = true → no_slash (String.rev_app a b) = true.
Proof.
  revert b. induction a as [|c a IH]; intros b Ha Hb; [done|].
  simpl in Ha. apply andb_true_iff in Ha as [Hc Ha]. simpl.
  apply IH; [done|]. simpl. by rewrite Hc.
Qed.

Lemma split_go_no_slash (cur s : string) :
  no_slash cur = true → Forall (λ x, no_slash x = true) (Py.split_go "/" cur s).
Proof.
  revert cur. induction s as [|c s IH]; intros cur Hcur; simpl.
  - constructor; [|done]. by apply no_slash_rev_app.
  - destruct (Ascii.eqb c "/") eqn:Hc.
    + constructor; [by apply no_slash_rev_app|by apply IH].
    + apply IH. simpl. by rewrite Hc.
Qed.

Lemma basename_no_slash (p : string) : no_slash (Py.basename p) = true.
Proof.
  unfold Py.basename, Py.split.
  pose proof (split_go_no_slash EmptyString p eq_refl) as Hall.
  pose proof (split_go_nonempty EmptyString p) as Hne.
  induction Hall as [|x l Hx Hl IH]; [done|].
  destruct l as [|y l]; [done|]. by apply IH.
Qed.

(** Joining [output], the name of a run folder and a file name puts
    slashes between them. *)
Lemma run_folder_paths (k : Z) :
  1 <= k <= 1000 →
  Py.path_join "output" (Py.format_0d 3 k) = "output/" +:+ Py.format_0d 3 k ∧
  String.eqb ("output/" +:+ Py.format_0d 3 k) EmptyString = false ∧
  Py.ends_with_slash ("output/" +:+ Py.format_0d 3 k) = false.
Proof.
  intros Hk.
  assert (H : List.forallb
                (λ i, let name := Py.format_0d 3 (Z.of_nat i) in
                      String.eqb (Py.path_join "output" name) ("output/" +:+ name)
                      && negb (String.eqb ("output/" +:+ name) EmptyString)
                      && negb (Py.ends_with_slash ("output/" +:+ name)))
                (List.seq 1 1000) = true) by (vm_compute; reflexivity).
  rewrite List.forallb_forall in H.
  specialize (H (Z.to_nat k)). rewrite Z2Nat.id in H by lia.
  assert (Hin : List.In (Z.to_nat k) (List.seq 1 1000)) by (apply List.in_seq; lia).
  apply H in Hin. cbv zeta in Hin.
  apply andb_true_iff in Hin as [Hin H3]. apply andb_true_iff in Hin as [H1 H2].
  apply String.eqb_eq in H1. apply negb_true_iff in H2, H3. done.
Qed.

Lemma run_folder_join (folder name : string) :
  run_folder folder → no_slash name = true →
  Py.path_join folder name = folder +:+ "/" +:+ name.
Proof.
  intros (k & Hk & ->) Hname.
  destruct (run_folder_paths k Hk) as (_ & Hne & Hend).
  unfold Py.path_join. rewrite Hne, Hend.
  destruct (String.prefix "/" name) eqn:Hpre; [|done].
  apply prefix_spec in Hpre as [post ->].
  change ("/" +:+ post) with (String "/" post) in Hname. done.
Qed.

Section Effects.
Context {W : Type} (E : environment W).

(** [next_output_folder], on [output], returns a run folder. *)
Lemma next_output_folder_run_folder (s s' : state W) (path : string) :
  next_output_folder E "output" s = (s', Returns path) → run_folder path.
Proof.
  unfold next_output_folder, makedirs, listdir, demand, expect, ask, lift, raise.
  unfold mbind, M_bind, mret, M_ret.
  destruct (env_makedirs E "output" (world s)) as [w1 [|]]; simpl; [|discriminate].
  destruct (env_listdir E "output" w1) as [w2 [entries|]]; simpl; [|discriminate].
  rewrite next_folder_name_slot. simpl.
  destruct (env_makedirs E _ w2) as [w3 [|]]; simpl; [|discriminate].
  intros [= _ <-].
  exists (next_slot Py.re_match_d3 (d_name <$> entries)).
  split; [apply next_slot_range|]. apply run_folder_paths, next_slot_range.
Qed.

Lemma next_output_folder_own_effects :
  quiet own_effects (next_output_folder E "output").
Proof.
  unfold next_output_folder.
  apply quiet_bind; [quiet; simpl; tauto|intros _].
  apply quiet_bind; [quiet; done|intros names].
  apply (quiet_bind_post _ (λ name, ∃ k, 1 <= k <= 1000 ∧ name = Py.format_0d 3 k)).
  - apply quiet_lift.
  - intros s s' name [= _ H]. rewrite next_folder_name_slot in H.
    injection H as <-. eexists. split; [apply next_slot_range|done].
  - intros name (k & Hk & ->). cbv zeta. quiet; [|done..].
    simpl. right. right. exists k. split; [done|]. by apply run_folder_paths.
Qed.

End Effects.

(** X13: whatever the environment answers and however the run ends,
    everything [main] has asked of its environment lies within fixed
    bounds.  The directories it creates are [temp_dl], [output] and run
    folders [output/NNN]; the files it opens and writes are the
    [framerate.txt] and the [subtitles.srt] of a run folder; every move
    has its destination straight inside a run folder; the programs it
    starts are [ffprobe] and, on the [subtitles.srt] of a run folder,
    [srt2subtitles]; the download is told to write to
    [temp_dl/video.<ext>]; the programs looked for are [ffmpeg] and
    [ffprobe], the directory listed is [output], the modules imported are
    [yt_dlp], [torch] and [whisper], and the model loaded is [base]. *)
Theorem main_own_effects {W} (E : environment W) (w : W) :
  Forall own_effects (run (main E) w).1.
Proof.
  apply quiet_run. unfold main.
  apply quiet_bind; [quiet; done|intros args_input].
  apply quiet_bind; [quiet; simpl; tauto|intros _]. cbv zeta.
  apply quiet_bind; [quiet; simpl; tauto|intros input_file].
  apply (quiet_bind_post _ run_folder);
    [apply next_output_folder_own_effects
    |apply next_output_folder_run_folder|intros out_folder Hfolder].
  assert (Hjoin : ∀ name, no_slash name = true →
            Py.path_join out_folder name = out_folder +:+ "/" +:+ name)
    by (intros name; by apply run_folder_join).
  quiet; simpl;
    first [ done
          | tauto
          | by (left; eexists)
          | by (exists out_folder; split; [done|]; left; apply Hjoin)
          | by (exists out_folder; split; [done|]; right; apply Hjoin)
          | by (eexists out_folder, _; split; [done|]; split;
                [|apply Hjoin]; first [apply basename_no_slash | reflexivity])
          | by (right; eexists out_folder, _; split; [done|];
                unfold srt2subtitles_cmd; rewrite Hjoin) ].
Qed.

(** *** Exit codes *)

Section Exits.
Context {W : Type} (E : environment W).













End Exits.



(** *** What a successful run has done *)

Section Success.
Context {W : Type} (E : environment W).

Lemma bind_returns {A B} (m : M (state W) A) (k : A → M (state W) B)
    (s s' : state W) (b : B) :
  (m ≫= k) s = (s', Returns b) →
  ∃ s1 a, m s = (s1, Returns a) ∧ k a s1 = (s', Returns b).
Proof.
  unfold mbind, M_bind. destruct (m s) as [s1 [a|e]]; [|discriminate].
  intros Hk. by exists s1, a.
Qed.

(** Events are only ever added to the trace. *)
Lemma keeps {A} (m : M (state W) A) (s s' : state W) (r : result A) (ev : event) :
  quiet any_event m → m s = (s', r) →
  List.In ev (trace s) → List.In ev (trace s').
Proof.
  intros Hq Hm Hin. destruct (Hq _ _ _ Hm) as (new & -> & _).
  apply List.in_or_app. by right.
Qed.

Lemma next_output_folder_returns (base path : string) (s s' : state W) :
  next_output_folder E base s = (s', Returns path) →
  List.In (EMakeDirs path true) (trace s').
Proof.
  unfold next_output_folder, makedirs, listdir, demand, expect, ask, lift, raise.
  unfold mbind, M_bind, mret, M_ret.
  destruct (env_makedirs E base (world s)) as [w1 [|]]; simpl; [|discriminate].
  destruct (env_listdir E base w1) as [w2 [entries|]]; simpl; [|discriminate].
  rewrite next_folder_name_slot. simpl.
  destruct (env_makedirs E _ w2) as [w3 [|]]; simpl; [|discriminate].
  intros [= <- <-]. by left.
Qed.

Lemma write_srt_returns (segments : list segment) (path : string)
    (s s' : state W) :
  write_srt E segments path s = (s', Returns tt) →
  ∃ text, write_cues segments = (text, Returns tt) ∧
          List.In (EWritten path (Text text)) (trace s').
Proof.
  unfold write_srt, open_w, demand, ask, close, lift, raise.
  unfold mbind, M_bind, mret, M_ret.
  destruct (env_open E path (world s)) as [w [|]]; simpl; [|discriminate].
  destruct (write_cues segments) as [f [[]|e]]; simpl; [|discriminate].
  intros [= <-]. exists f. split; [done|by left].
Qed.

Lemma run_node_returns (srt_path : string) (fps : float) (out_folder : string)
    (s s' : state W) (converted : option string) :
  run_node_srt2subtitles E srt_path fps out_folder s = (s', Returns converted) →
  ∃ n outcome,
    Py.int_of_float fps = Returns n ∧
    List.In (ERun (srt2subtitles_cmd srt_path n) outcome) (trace s').
Proof.
  unfold run_node_srt2subtitles, try_except, check_output, ask, print, emit,
    lift, raise.
  unfold mbind, M_bind, mret, M_ret.
  destruct (Py.int_of_float fps) as [n|e]; simpl; [|discriminate].
  fold (srt2subtitles_cmd srt_path n).
  destruct (env_run E (srt2subtitles_cmd srt_path n) (world s))
    as [w1 outcome] eqn:Hrun; simpl.
  intros H. exists n, outcome. split; [done|].
  destruct outcome as [[|p|p] [text|]|]; simpl in H; try discriminate H;
    injection H as <- _; simpl; tauto.
Qed.

Lemma transcribe_returns (path : string) (s s' : state W) (answer : transcript) :
  expect (env_transcribe E path) (ETranscribe path) CollaboratorError s
    = (s', Returns answer) →
  List.In (ETranscribe path (Some answer)) (trace s').
Proof.
  unfold expect, ask, raise. unfold mbind, M_bind, mret, M_ret.
  destruct (env_transcribe E path (world s)) as [w1 [a|]]; simpl; [|discriminate].
  intros [= <- <-]. by left.
Qed.

(** What [detect_fps] returns is the frame rate of the probe it ran. *)
Lemma detect_fps_returns (video_path : string) (s s' : state W) (fps : float) :
  detect_fps E video_path s = (s', Returns fps) →
  ∃ probe, List.In (ERun (ffprobe_cmd video_path) probe) (trace s') ∧
           fps = fps_of probe.
Proof.
  unfold detect_fps, try_except, probe_fps, check_output, ask, lift, print, emit.
  unfold mbind, M_bind, mret, M_ret, raise.
  destruct (env_run E (ffprobe_cmd video_path) (world s)) as [w probe].
  intros H. exists probe. destruct probe as [status out|]; simpl in *.
  - destruct (Z.eqb_spec status 0) as [-> | Hstatus]; simpl in *.
    + destruct (parse_fps out) as [x|e] eqn:Hparse.
      * injection H as <- <-. split; [by left|done].
      * rewrite (parse_fps_raises _ _ Hparse) in H.
        injection H as <- <-. split; [right; by left|done].
    + injection H as <- <-. split; [right; by left|by destruct status].
  - injection H as <- <-. split; [right; by left|done].
Qed.

(** Brings a fact about the trace before a step over to the trace after
    it. *)
Ltac carry Hm Hin :=
  match type of Hm with
  | ?m ?s = _ =>
      let Hq := fresh "Hq" in
      assert (Hq : quiet any_event m) by (quiet; done);
      apply (keeps m s _ _ _ Hq Hm) in Hin; clear Hq
  end.

(** Brings every fact about the trace before a step over to the trace
    after it. *)
Ltac carry_all Hm :=
  match type of Hm with
  | ?m ?s = _ =>
      repeat match goal with
             | Hin : List.In _ (trace s) |- _ => carry Hm Hin
             end
  end.

(** X15: a run in which [main] returns has created a run folder
    [output/NNN]; it has probed the media file and written the frame rate
    of that probe, the fallback 24.0 if the probe failed, to
    [framerate.txt] in the folder; it has obtained at least one segment
    from the transcription of the same media file; it has written a
    complete [subtitles.srt] for these segments into the folder; and it
    has run the converter on that file with the same frame rate, truncated
    to an integer. *)
Theorem main_success_artifacts (w : W) :
  (run (main E) w).2 = Returns tt →
  ∃ folder media probe answer text n outcome,
    let events := (run (main E) w).1 in
    let fps := fps_of probe in
    let segments := default [] (answer !! "segments"%string) in
    run_folder folder ∧
    List.In (EMakeDirs folder true) events ∧
    List.In (ERun (ffprobe_cmd media) probe) events ∧
    List.In (EWritten (Py.path_join folder "framerate.txt") (ReprOf fps)) events ∧
    List.In (ETranscribe media (Some answer)) events ∧
    segments ≠ [] ∧ write_cues segments = (text, Returns tt) ∧
    List.In (EWritten (Py.path_join folder "subtitles.srt") (Text text)) events ∧
    Py.int_of_float fps = Returns n ∧
    List.In (ERun (srt2subtitles_cmd (Py.path_join folder "subtitles.srt") n)
                  outcome) events.
Proof.
  unfold run.
  destruct (main E {| world := w; trace := [] |}) as [s' r] eqn:H.
  simpl. intros ->. setoid_rewrite <- List.in_rev.
  unfold main in H.
  (* the steps up to the folder *)
  apply bind_returns in H as (s0 & args_input & _ & H).
  apply bind_returns in H as (s1 & [] & _ & H). cbv beta zeta in H.
  apply bind_returns in H as (s2 & input_file & _ & H).
  apply bind_returns in H as (s3 & folder & Hfolder & H). cbv beta zeta in H.
  pose proof (next_output_folder_run_folder E _ _ _ Hfolder) as Hrunf.
  apply next_output_folder_returns in Hfolder.
  (* the steps up to the probe *)
  repeat match type of H with
         | (detect_fps _ _ ≫= _) _ = _ => fail 1
         | (_ ≫= _) _ = _ =>
             let Hm := fresh "Hm" in
             apply bind_returns in H as (? & ? & Hm & H); cbv beta zeta in H;
             carry_all Hm; clear Hm
         end.
  apply bind_returns in H as (s4 & fps & Hfps & H). cbv beta zeta in H.
  carry_all Hfps. apply detect_fps_returns in Hfps as (probe & Hprobe & ->).
  (* the steps up to [framerate.txt] *)
  repeat match type of H with
         | (close _ _ _ ≫= _) _ = _ => fail 1
         | (_ ≫= _) _ = _ =>
             let Hm := fresh "Hm" in
             apply bind_returns in H as (? & ? & Hm & H); cbv beta zeta in H;
             carry_all Hm; clear Hm
         end.
  apply bind_returns in H as (s5 & [] & Hclose & H).
  carry_all Hclose.
  assert (Hrate : List.In (EWritten (Py.path_join folder "framerate.txt")
                                    (ReprOf (fps_of probe))) (trace s5)).
  { injection Hclose as <-. by left. }
  clear Hclose.
  (* the steps up to the transcription *)
  repeat match type of H with
         | (expect _ _ _ ≫= _) _ = _ => fail 1
         | (_ ≫= _) _ = _ =>
             let Hm := fresh "Hm" in
             apply bind_returns in H as (? & ? & Hm & H); cbv beta zeta in H;
             carry_all Hm; clear Hm
         end.
  apply bind_returns in H as (s6 & answer & Hm & H). cbv beta zeta in H.
  carry_all Hm. apply transcribe_returns in Hm.
  destruct (default [] (answer !! "segments"%string)) as [|seg0 segments] eqn:Hsegs.
  { exfalso. revert H. unfold print, emit, sys_exit, raise.
    unfold mbind, M_bind. discriminate. }
  (* the subtitles *)
  apply bind_returns in H as (s7 & [] & Hsrt & H).
  carry_all Hsrt. apply write_srt_returns in Hsrt as (text & Hcues & Hsub).
  apply bind_returns in H as (s8 & [] & Hp & H).
  carry_all Hp. clear Hp.
  (* the conversion *)
  apply bind_returns in H as (s9 & converted & Hnode & H).
  carry_all Hnode. apply run_node_returns in Hnode as (n & outcome & Hn & Hrun).
  carry_all H.
  eexists folder, _, probe, answer, text, n, outcome. cbv zeta.
  rewrite Hsegs. repeat split; try done.
Qed.

End Success.

Lemma main_success_artifacts_witness :
  ∃ folder media probe answer text n outcome,
    let events := (run (main (scripted healthy)) tt).1 in
    let fps := fps_of probe in
    let segments := default [] (answer !! "segments"%string) in
    run_folder folder ∧
    List.In (EMakeDirs folder true) events ∧
    List.In (ERun (ffprobe_cmd media) probe) events ∧
    List.In (EWritten (Py.path_join folder "framerate.txt") (ReprOf fps)) events ∧
    List.In (ETranscribe media (Some answer)) events ∧
    segments ≠ [] ∧ write_cues segments = (text, Returns tt) ∧
    List.In (EWritten (Py.path_join folder "subtitles.srt") (Text text)) events ∧
    Py.int_of_float fps = Returns n ∧
    List.In (ERun (srt2subtitles_cmd (Py.path_join folder "subtitles.srt") n)
                  outcome) events.
Proof.
  apply (main_success_artifacts (scripted healthy) tt).
  vm_compute. reflexivity.
Defined.
